(** * Power HAL (libperfmgr) hint arbitration: [power-libperfmgr/Power.cpp]

    A shallow embedding of the three hint entry points of the [Power]
    service ([powerHint], [powerHintAsync_1_2], [powerHintAsync_1_3]) and of
    [isSupportedGovernor], followed by the properties of the hint
    arbitration that the specification states.

    The service object is modelled by the record [Power] holding its four
    flags.  Every call the service makes on a collaborator (the hint
    manager, the interaction handler, the display helper, the logger and
    the tracer) is recorded, in program order, as an [Event]; a member
    function is a computation in the monad [Hal], which threads the object
    and accumulates the events. *)

From Stdlib Require Import ZArith String Ascii List Bool Lia.
From stdpp Require Import base decidable gmap strings list.

Local Open Scope string_scope.
Local Open Scope list_scope.
Local Open Scope Z_scope.

(** ** Hint kinds *)

(** The enumerators of the HIDL [PowerHint] type.  Version 1.2 of the
    interface extends the 1.0 enumeration and version 1.3 extends 1.2, so
    one type carries all of them and [static_cast] between the versions is
    the identity. *)
Inductive PowerHint : Type :=
  | VSYNC
  | INTERACTION
  | VIDEO_ENCODE
  | VIDEO_DECODE
  | LOW_POWER
  | SUSTAINED_PERFORMANCE
  | VR_MODE
  | LAUNCH
  | AUDIO_STREAMING
  | AUDIO_LOW_LATENCY
  | CAMERA_LAUNCH
  | CAMERA_STREAMING
  | CAMERA_SHOT
  | EXPENSIVE_RENDERING.

#[global] Instance PowerHint_eq_dec : EqDecision PowerHint.
Proof. solve_decision. Defined.

(** The underlying [uint32_t] of an enumerator, as the interface
    definition numbers them; the code compares hints with [>=]. *)
Definition toUnderlying (hint : PowerHint) : Z :=
  match hint with
  | VSYNC => 1
  | INTERACTION => 2
  | VIDEO_ENCODE => 3
  | VIDEO_DECODE => 4
  | LOW_POWER => 5
  | SUSTAINED_PERFORMANCE => 6
  | VR_MODE => 7
  | LAUNCH => 8
  | AUDIO_STREAMING => 9
  | AUDIO_LOW_LATENCY => 10
  | CAMERA_LAUNCH => 11
  | CAMERA_STREAMING => 12
  | CAMERA_SHOT => 13
  | EXPENSIVE_RENDERING => 14
  end.

(** [hint == other] on enumerators compares the underlying values. *)
Definition hint_eqb (hint other : PowerHint) : bool :=
  toUnderlying hint =? toUnderlying other.

(** ** Payloads *)

(** [data] is an [int32_t]. *)
Definition int32 (data : Z) : Prop := -2147483648 <= data <= 2147483647.

(** [if (data)] *)
Definition truthy (data : Z) : bool := negb (data =? 0).

(** The TPU sentinels are [size_t] constants: in [data == kTpuBoostShort]
    the [int32_t] operand is converted to the 64-bit unsigned type first,
    which wraps a negative payload around.  On an [int32_t] the outcome is
    that of comparing the integers ([to_size_t_eqb] below). *)
Definition to_size_t (data : Z) : Z := data mod 2 ^ 64.

Definition kTpuBoostStop : Z := 1000.
Definition kTpuBoostShort : Z := 1001.
Definition kTpuBoostLong : Z := 1002.
Definition kTpuBoostDurationShortMs : Z := 200.
Definition kTpuBoostDurationLongMs : Z := 2000.

(** [std::chrono::milliseconds(n)] and [std::chrono::seconds(n)], both as a
    count of milliseconds, the unit [DoHint] takes its timeout in. *)
Definition milliseconds (n : Z) : Z := n.
Definition seconds (n : Z) : Z := n * 1000.

(** ** The service object and its effects *)

(** The flags of the [Power] object.  Its two other members, [mHintManager]
    and [mInteractionHandler], are handles on collaborators: a call through
    them is an [Event]. *)
Record Power : Type := mkPower {
  mVRModeOn : bool;
  mSustainedPerfModeOn : bool;
  mCameraStreamingModeOn : bool;
  mReady : bool
}.

#[global] Instance Power_eq_dec : EqDecision Power.
Proof. solve_decision. Defined.

Inductive Event : Type :=
  (** [mHintManager->DoHint(name)] and [mHintManager->DoHint(name, timeout)] *)
  | DoHint (name : string) (timeout_ms : option Z)
  (** [mHintManager->EndHint(name)] *)
  | EndHint (name : string)
  (** [mInteractionHandler->Acquire(data)] *)
  | Acquire (duration : Z)
  (** [set_display_lpm(on)] *)
  | set_display_lpm (on : bool)
  (** [ATRACE_INT(toString(hint), data)] *)
  | ATRACE_INT (hint : PowerHint) (data : Z)
  (** [ALOGD("%s: %d", toString(hint), data)] *)
  | ALOGD (hint : PowerHint) (data : Z)
  (** [ALOGV(fmt, __func__)] *)
  | ALOGV (fmt : string) (func : string)
  (** [ALOGE(fmt, data)] *)
  | ALOGE (fmt : string) (data : Z)
  (** [LOG(ERROR) << msg] *)
  | LOG_ERROR (msg : string).

Definition Hal (A : Type) : Type := Power -> A * Power * list Event.

Definition ret {A} (a : A) : Hal A := fun s => (a, s, []).

Definition bind {A B} (m : Hal A) (k : A -> Hal B) : Hal B := fun s =>
  let '(a, s1, t1) := m s in
  let '(b, s2, t2) := k a s1 in
  (b, s2, t1 ++ t2).

Declare Scope hal_scope.
Delimit Scope hal_scope with hal.
Bind Scope hal_scope with Hal.

Notation "x <- m ;; k" := (bind m (fun x => k))
  (at level 100, m at next level, k at level 200, right associativity,
   only parsing) : hal_scope.
Notation "m ;; k" := (bind m (fun _ => k))
  (at level 100, k at level 200, right associativity, only parsing) : hal_scope.

Local Open Scope hal_scope.

Definition emit (e : Event) : Hal unit := fun s => (tt, s, [e]).
Definition load {A} (field : Power -> A) : Hal A := fun s => (field s, s, []).
Definition store (upd : Power -> Power) : Hal unit := fun s => (tt, upd s, []).

(** [return Void();] and the empty statement. *)
Definition Void : Hal unit := ret tt.
Definition skip : Hal unit := ret tt.

(** [a || b] on effectful operands: [b] runs only when [a] yields false. *)
Definition lazy_or (a b : Hal bool) : Hal bool :=
  x <- a ;; if x : bool then ret true else b.

(** [!a] *)
Definition notM (a : Hal bool) : Hal bool := x <- a ;; ret (negb x).

Definition set_mVRModeOn (b : bool) (p : Power) : Power :=
  mkPower b (mSustainedPerfModeOn p) (mCameraStreamingModeOn p) (mReady p).
Definition set_mSustainedPerfModeOn (b : bool) (p : Power) : Power :=
  mkPower (mVRModeOn p) b (mCameraStreamingModeOn p) (mReady p).
Definition set_mCameraStreamingModeOn (b : bool) (p : Power) : Power :=
  mkPower (mVRModeOn p) (mSustainedPerfModeOn p) b (mReady p).

(** The final object and the events of a computation. *)
Definition state_of {A} (r : A * Power * list Event) : Power := snd (fst r).
Definition trace_of {A} (r : A * Power * list Event) : list Event := snd r.

(** The member initialisers of [Power::Power()]. *)
Definition Power_new : Power := mkPower false false false false.

(** ** Logging helpers *)

(** [ALOGD_IF(cond, "%s: %d", toString(hint), data)] *)
Definition ALOGD_IF (cond : bool) (hint : PowerHint) (data : Z) : Hal unit :=
  if cond then emit (ALOGD hint data) else skip.

Definition ignoring : string := "%s: ignoring due to other active perf hints".

(** ** [Power::isSupportedGovernor] *)

(** What [android::base::ReadFileToString] leaves behind when asked for
    [/sys/devices/system/cpu/cpu0/cpufreq/scaling_governor]: its result and
    the contents of the buffer.  An entry point that falls through to the
    one below it reads the file again; one request sees the same contents
    at each reading. *)
Record ReadFile : Type := mkReadFile {
  read_ok : bool;
  read_buf : string
}.

(** [isspace] in the C locale. *)
Definition isspace (c : ascii) : bool :=
  let n := Z.of_nat (nat_of_ascii c) in
  (n =? 32) || ((9 <=? n) && (n <=? 13)).

Fixpoint skip_space (s : string) : string :=
  match s with
  | String c rest => if isspace c then skip_space rest else s
  | EmptyString => EmptyString
  end.

(** [android::base::Trim]: the string without its leading and trailing
    white space. *)
Definition Trim (s : string) : string :=
  String.rev (skip_space (String.rev (skip_space s))).

Definition isSupportedGovernor (file : ReadFile) : Hal bool :=
  let buf := if read_ok file then Trim (read_buf file) else read_buf file in
  (* Only support EAS 1.2, legacy EAS *)
  if String.eqb buf "schedutil" || String.eqb buf "sched" then
    ret true
  else
    emit (LOG_ERROR "Governor not supported by powerHAL, skipping") ;;
    ret false.

(** ** [Power::powerHint] *)

Definition powerHint (file : ReadFile) (hint : PowerHint) (data : Z) : Hal unit :=
  stop <- lazy_or (notM (isSupportedGovernor file)) (notM (load mReady)) ;;
  if stop : bool then Void else
  emit (ATRACE_INT hint data) ;;
  ALOGD_IF (negb (hint_eqb hint INTERACTION)) hint data ;;
  match hint with
  | INTERACTION =>
      vr <- load mVRModeOn ;;
      sp <- load mSustainedPerfModeOn ;;
      if vr || sp then emit (ALOGV ignoring "powerHint")
      else emit (Acquire data)
  | SUSTAINED_PERFORMANCE =>
      sp <- load mSustainedPerfModeOn ;;
      if truthy data && negb sp then
        vr <- load mVRModeOn ;;
        (if negb vr then (* Sustained mode only. *)
           emit (DoHint "SUSTAINED_PERFORMANCE" None)
         else (* Sustained + VR mode. *)
           emit (EndHint "VR_MODE") ;;
           emit (DoHint "VR_SUSTAINED_PERFORMANCE" None)) ;;
        store (set_mSustainedPerfModeOn true)
      else if negb (truthy data) && sp then
        emit (EndHint "VR_SUSTAINED_PERFORMANCE") ;;
        emit (EndHint "SUSTAINED_PERFORMANCE") ;;
        vr <- load mVRModeOn ;;
        (if vr then (* Switch back to VR Mode. *)
           emit (DoHint "VR_MODE" None)
         else skip) ;;
        store (set_mSustainedPerfModeOn false)
      else skip
  | VR_MODE =>
      vr <- load mVRModeOn ;;
      if truthy data && negb vr then
        sp <- load mSustainedPerfModeOn ;;
        (if negb sp then (* VR mode only. *)
           emit (DoHint "VR_MODE" None)
         else (* Sustained + VR mode. *)
           emit (EndHint "SUSTAINED_PERFORMANCE") ;;
           emit (DoHint "VR_SUSTAINED_PERFORMANCE" None)) ;;
        store (set_mVRModeOn true)
      else if negb (truthy data) && vr then
        emit (EndHint "VR_SUSTAINED_PERFORMANCE") ;;
        emit (EndHint "VR_MODE") ;;
        sp <- load mSustainedPerfModeOn ;;
        (if sp then (* Switch back to sustained Mode. *)
           emit (DoHint "SUSTAINED_PERFORMANCE" None)
         else skip) ;;
        store (set_mVRModeOn false)
      else skip
  | LAUNCH =>
      vr <- load mVRModeOn ;;
      sp <- load mSustainedPerfModeOn ;;
      if vr || sp then emit (ALOGV ignoring "powerHint")
      else if truthy data then (* Hint until canceled *)
        emit (DoHint "LAUNCH" None)
      else emit (EndHint "LAUNCH")
  | LOW_POWER =>
      if truthy data then emit (set_display_lpm true)
      else emit (set_display_lpm false)
  | _ => skip
  end.

(** ** [Power::powerHintAsync] *)

Definition powerHintAsync (file : ReadFile) (hint : PowerHint) (data : Z) : Hal unit :=
  powerHint file hint data.

(** ** [Power::powerHintAsync_1_2] *)

Definition powerHintAsync_1_2 (file : ReadFile) (hint : PowerHint) (data : Z) : Hal unit :=
  stop <- lazy_or (notM (isSupportedGovernor file)) (notM (load mReady)) ;;
  if stop : bool then Void else
  emit (ATRACE_INT hint data) ;;
  ALOGD_IF (toUnderlying AUDIO_STREAMING <=? toUnderlying hint) hint data ;;
  match hint with
  | AUDIO_LOW_LATENCY =>
      if truthy data then (* Hint until canceled *)
        emit (DoHint "AUDIO_LOW_LATENCY" None)
      else emit (EndHint "AUDIO_LOW_LATENCY")
  | AUDIO_STREAMING =>
      vr <- load mVRModeOn ;;
      sp <- load mSustainedPerfModeOn ;;
      if vr || sp then emit (ALOGV ignoring "powerHintAsync_1_2")
      else if data =? 1 then emit (DoHint "AUDIO_STREAMING" None)
      else if data =? 0 then emit (EndHint "AUDIO_STREAMING")
      else if to_size_t data =? kTpuBoostShort then
        emit (DoHint "TPU_BOOST" (Some (milliseconds kTpuBoostDurationShortMs)))
      else if to_size_t data =? kTpuBoostLong then
        emit (DoHint "TPU_BOOST" (Some (milliseconds kTpuBoostDurationLongMs)))
      else if to_size_t data =? kTpuBoostStop then emit (EndHint "TPU_BOOST")
      else emit (ALOGE "AUDIO STREAMING INVALID DATA: %d" data)
  | CAMERA_LAUNCH =>
      if data >? 0 then
        emit (DoHint "CAMERA_LAUNCH" (Some (milliseconds data))) ;;
        (* boosts 2.5s for launching *)
        emit (DoHint "LAUNCH" (Some (milliseconds 2500)))
      else if data =? 0 then emit (EndHint "CAMERA_LAUNCH")
      else emit (ALOGE "CAMERA LAUNCH INVALID DATA: %d" data)
  | CAMERA_STREAMING =>
      if data >? 0 then
        emit (DoHint "CAMERA_STREAMING" None) ;;
        store (set_mCameraStreamingModeOn true)
      else if data =? 0 then
        emit (EndHint "CAMERA_STREAMING") ;;
        (* Boost 1s for tear down *)
        emit (DoHint "CAMERA_LAUNCH" (Some (seconds 1))) ;;
        store (set_mCameraStreamingModeOn false)
      else emit (ALOGE "CAMERA STREAMING INVALID DATA: %d" data)
  | CAMERA_SHOT =>
      if data >? 0 then emit (DoHint "CAMERA_SHOT" (Some (milliseconds data)))
      else if data =? 0 then emit (EndHint "CAMERA_SHOT")
      else emit (ALOGE "CAMERA SHOT INVALID DATA: %d" data)
  | _ => powerHint file hint data
  end.

(** ** [Power::powerHintAsync_1_3] *)

Definition powerHintAsync_1_3 (file : ReadFile) (hint : PowerHint) (data : Z) : Hal unit :=
  stop <- lazy_or (notM (isSupportedGovernor file)) (notM (load mReady)) ;;
  if stop : bool then Void else
  if hint_eqb hint EXPENSIVE_RENDERING then
    emit (ATRACE_INT hint data) ;;
    vr <- load mVRModeOn ;;
    sp <- load mSustainedPerfModeOn ;;
    if vr || sp then emit (ALOGV ignoring "powerHintAsync_1_3")
    else if data >? 0 then emit (DoHint "EXPENSIVE_RENDERING" None)
    else emit (EndHint "EXPENSIVE_RENDERING")
  else powerHintAsync_1_2 file hint data.

(** ** Observations on a trace *)

(** The calls the Hint Executor receives: [DoHint] activates a named hint,
    for a duration when one is given, and [EndHint] deactivates it. *)
Inductive ExecutorCall : Type :=
  | activate (name : string) (duration_ms : option Z)
  | deactivate (name : string).

Definition executor_call (e : Event) : option ExecutorCall :=
  match e with
  | DoHint name timeout => Some (activate name timeout)
  | EndHint name => Some (deactivate name)
  | _ => None
  end.

Definition executor_calls (t : list Event) : list ExecutorCall :=
  omap executor_call t.

(** Diagnostics: trace counters and log lines of any level. *)
Definition is_log (e : Event) : bool :=
  match e with
  | ATRACE_INT _ _ | ALOGD _ _ | ALOGV _ _ | ALOGE _ _ | LOG_ERROR _ => true
  | _ => false
  end.

(** The errors a trace logs. *)
Definition is_error (e : Event) : bool :=
  match e with
  | ALOGE _ _ | LOG_ERROR _ => true
  | _ => false
  end.

Definition error_logs (t : list Event) : list Event := List.filter is_error t.

(** The mode flags of the object, in the order VR, sustained performance,
    camera streaming. *)
Definition mode_flags (p : Power) : bool * bool * bool :=
  (mVRModeOn p, mSustainedPerfModeOn p, mCameraStreamingModeOn p).

(** ** Requests and sequences of requests *)

Inductive EntryPoint : Type :=
  | ep_powerHint
  | ep_powerHintAsync
  | ep_powerHintAsync_1_2
  | ep_powerHintAsync_1_3.

Record Request : Type := mkRequest {
  req_entry : EntryPoint;
  req_governor : ReadFile;
  req_hint : PowerHint;
  req_data : Z
}.

Definition dispatch (ep : EntryPoint) : ReadFile -> PowerHint -> Z -> Hal unit :=
  match ep with
  | ep_powerHint => powerHint
  | ep_powerHintAsync => powerHintAsync
  | ep_powerHintAsync_1_2 => powerHintAsync_1_2
  | ep_powerHintAsync_1_3 => powerHintAsync_1_3
  end.

Definition handle (r : Request) : Hal unit :=
  dispatch (req_entry r) (req_governor r) (req_hint r) (req_data r).

(** The requests of a list, served one after the other. *)
Fixpoint serve (rs : list Request) : Hal unit :=
  match rs with
  | [] => ret tt
  | r :: rest => handle r ;; serve rest
  end.

(** A governor file as the kernel presents it. *)
Definition schedutil : ReadFile := mkReadFile true ("schedutil" ++ String "010" "")%string.

(** ** Vocabulary of the properties *)

(** *** The governor and readiness gate *)

(** The governor name [isSupportedGovernor] compares: the trimmed file
    contents, or the untrimmed buffer when the read failed. *)
Definition governor (file : ReadFile) : string :=
  if read_ok file then Trim (read_buf file) else read_buf file.

(** The two supported identifiers. *)
Definition supported (file : ReadFile) : Prop :=
  governor file = "schedutil" \/ governor file = "sched".

#[global] Instance supported_dec file : Decision (supported file).
Proof. unfold supported. apply _. Defined.

(** What an entry point logs on its way through the governor check. *)
Definition governor_log (file : ReadFile) : list Event :=
  if bool_decide (supported file) then []
  else [LOG_ERROR "Governor not supported by powerHAL, skipping"].

(** A request passes the gate when the governor is supported and the
    object is ready. *)
Definition passes (file : ReadFile) (s : Power) : bool :=
  bool_decide (supported file) && mReady s.

(** *** Suppression *)

Definition suppressing (s : Power) : bool := mVRModeOn s || mSustainedPerfModeOn s.

(** The four kinds the code guards with [mVRModeOn || mSustainedPerfModeOn]. *)
Definition guarded_kind (hint : PowerHint) : Prop :=
  hint = INTERACTION \/ hint = LAUNCH \/ hint = AUDIO_STREAMING
  \/ hint = EXPENSIVE_RENDERING.

(** *** Mode requests *)

Definition mode_kind (hint : PowerHint) : Prop :=
  hint = VR_MODE \/ hint = SUSTAINED_PERFORMANCE.

(** The flag a mode request drives. *)
Definition mode_flag (hint : PowerHint) (s : Power) : bool :=
  match hint with
  | VR_MODE => mVRModeOn s
  | SUSTAINED_PERFORMANCE => mSustainedPerfModeOn s
  | CAMERA_STREAMING => mCameraStreamingModeOn s
  | _ => false
  end.

(** *** Invalid payloads *)

(** A payload outside the values its kind expects. *)
Definition invalid_payload (hint : PowerHint) (data : Z) : Prop :=
  match hint with
  | CAMERA_LAUNCH | CAMERA_STREAMING | CAMERA_SHOT => data < 0
  | AUDIO_STREAMING =>
      data <> 0 /\ data <> 1 /\ data <> 1000 /\ data <> 1001 /\ data <> 1002
  | _ => False
  end.

(** The error line each kind logs for such a payload. *)
Definition invalid_data_error (hint : PowerHint) (data : Z) : list Event :=
  match hint with
  | AUDIO_STREAMING => [ALOGE "AUDIO STREAMING INVALID DATA: %d" data]
  | CAMERA_LAUNCH => [ALOGE "CAMERA LAUNCH INVALID DATA: %d" data]
  | CAMERA_STREAMING => [ALOGE "CAMERA STREAMING INVALID DATA: %d" data]
  | CAMERA_SHOT => [ALOGE "CAMERA SHOT INVALID DATA: %d" data]
  | _ => []
  end.

(** *** The set of active hints *)

(** The hints the Hint Executor holds active: an activation inserts the
    name, a deactivation removes it. *)
Definition apply_call (active : gset string) (c : ExecutorCall) : gset string :=
  match c with
  | activate name _ => {[name]} ∪ active
  | deactivate name => active ∖ {[name]}
  end.

Definition active_after (calls : list ExecutorCall) : gset string :=
  foldl apply_call ∅ calls.

(** Both plain hints active at once. *)
Definition both_plain (active : gset string) : Prop :=
  "VR_MODE" ∈ active /\ "SUSTAINED_PERFORMANCE" ∈ active.

#[global] Instance both_plain_dec active : Decision (both_plain active).
Proof. unfold both_plain. apply _. Defined.

(** The mode hint that stands for the two flags. *)
Definition mode_hints (s : Power) : gset string :=
  match mVRModeOn s, mSustainedPerfModeOn s with
  | true, true => {["VR_SUSTAINED_PERFORMANCE"]}
  | true, false => {["VR_MODE"]}
  | false, true => {["SUSTAINED_PERFORMANCE"]}
  | false, false => ∅
  end.

(** [P] holds of the active set before, between and after the calls. *)
Fixpoint throughout (P : gset string -> Prop) (active : gset string)
    (calls : list ExecutorCall) : Prop :=
  P active /\
  match calls with
  | [] => True
  | c :: rest => throughout P (apply_call active c) rest
  end.

(** ** Start-up: the thread [Power::Power()] detaches *)

(** What the start-up thread does besides calling the hint manager. *)
Inductive StartupEvent : Type :=
  (** [LOG(FATAL) << "Invalid config: " << kPowerHalConfigPath] *)
  | LOG_FATAL (msg : string)
  (** [mInteractionHandler->Init()] *)
  | InteractionHandler_Init
  (** [ALOGI(msg)] *)
  | ALOGI (msg : string)
  (** an event of the kinds the entry points emit *)
  | hal (e : Event).

(** How the thread ends: it returns, leaving the object behind, or
    [LOG(FATAL)] has brought the process down. *)
Inductive Outcome : Type :=
  | Running (p : Power)
  | Aborted.

Definition Startup : Type := Power -> Power * list StartupEvent.

Definition and_then (a b : Startup) : Startup := fun s =>
  let '(s1, t1) := a s in
  let '(s2, t2) := b s1 in
  (s2, t1 ++ t2).

Declare Scope startup_scope.
Delimit Scope startup_scope with startup.
Notation "a >> b" := (and_then a b)
  (at level 62, right associativity) : startup_scope.

(** A computation of [Hal] run by the thread. *)
Definition run (m : Hal unit) : Startup := fun s =>
  let '(_, s1, t) := m s in (s1, List.map hal t).

Definition logI (msg : string) : Startup := fun s => (s, [ALOGI msg]).
Definition nothing : Startup := fun s => (s, []).

Definition set_mReady (b : bool) (p : Power) : Power :=
  mkPower (mVRModeOn p) (mSustainedPerfModeOn p) (mCameraStreamingModeOn p) b.

(** The body of the thread once [WaitForProperty(kPowerHalInitProp, "1")]
    has returned.  [kPowerHalConfigPath] is the constant of that name, which
    [Power.h] declares; [loaded] tells whether
    [HintManager::GetFromJSON(kPowerHalConfigPath)] gave a manager; [state],
    [audio] and [rendering] are the values [GetProperty] reads for
    [kPowerHalStateProp], [kPowerHalAudioProp] and [kPowerHalRenderingProp]. *)
Definition init_thread (kPowerHalConfigPath : string) (loaded : bool)
    (state audio rendering : string) (p : Power) : Outcome * list StartupEvent :=
  if negb loaded then
    (Aborted, [LOG_FATAL ("Invalid config: " ++ kPowerHalConfigPath)%string])
  else
    let '(p1, t) :=
      ((fun s => (s, [InteractionHandler_Init])) >>
       (if String.eqb state "CAMERA_STREAMING" then
          logI "Initialize with CAMERA_STREAMING on" >>
          run (emit (DoHint "CAMERA_STREAMING" None) ;;
               store (set_mCameraStreamingModeOn true))
        else if String.eqb state "SUSTAINED_PERFORMANCE" then
          logI "Initialize with SUSTAINED_PERFORMANCE on" >>
          run (emit (DoHint "SUSTAINED_PERFORMANCE" None) ;;
               store (set_mSustainedPerfModeOn true))
        else if String.eqb state "VR_MODE" then
          logI "Initialize with VR_MODE on" >>
          run (emit (DoHint "VR_MODE" None) ;;
               store (set_mVRModeOn true))
        else if String.eqb state "VR_SUSTAINED_PERFORMANCE" then
          logI "Initialize with SUSTAINED_PERFORMANCE and VR_MODE on" >>
          run (emit (DoHint "VR_SUSTAINED_PERFORMANCE" None) ;;
               store (set_mSustainedPerfModeOn true) ;;
               store (set_mVRModeOn true))
        else logI "Initialize PowerHAL") >>
       (if String.eqb audio "AUDIO_LOW_LATENCY" then
          logI "Initialize with AUDIO_LOW_LATENCY on" >>
          run (emit (DoHint "AUDIO_LOW_LATENCY" None))
        else nothing) >>
       (if String.eqb rendering "EXPENSIVE_RENDERING" then
          logI "Initialize with EXPENSIVE_RENDERING on" >>
          run (emit (DoHint "EXPENSIVE_RENDERING" None))
        else nothing) >>
       (* Now start to take powerhint *)
       run (store (set_mReady true)))%startup p
    in (Running p1, t).

(** The hint-manager calls among the events of the thread. *)
Definition startup_calls (t : list StartupEvent) : list ExecutorCall :=
  omap (fun e => match e with hal e => executor_call e | _ => None end) t.

(** ** [boolToString] and [Power::debug] *)

Definition boolToString (b : bool) : string := if b then "true" else "false".

(** The part of a [native_handle_t] that [debug] reads: [numFds] and the
    descriptors at the head of [data]. *)
Record native_handle : Type := mk_native_handle {
  numFds : Z;
  data : list Z
}.

Inductive DebugEvent : Type :=
  (** [mHintManager->DumpToFd(fd)] *)
  | DumpToFd (fd : Z)
  (** [android::base::WriteStringToFd(buf, fd)] *)
  | WriteStringToFd (buf : string) (fd : Z)
  (** [PLOG(ERROR) << msg] *)
  | PLOG_ERROR (msg : string)
  (** [fsync(fd)] *)
  | fsync (fd : Z).

Definition newline : string := String "010" "".

(** [debug(handle, options)]: [handle] is [None] for a null handle,
    [IsRunning] is what [mHintManager->IsRunning()] answers and [written]
    what [WriteStringToFd] returns. *)
Definition debug (handle : option native_handle) (IsRunning written : bool)
    (p : Power) : list DebugEvent :=
  match handle with
  | Some h =>
      if (numFds h >=? 1) && mReady p then
        let fd := nth 0 (data h) 0 in
        let buf :=
          ("HintManager Running: " ++ boolToString IsRunning ++ newline ++
           "VRMode: " ++ boolToString (mVRModeOn p) ++ newline ++
           "CameraStreamingMode: " ++ boolToString (mCameraStreamingModeOn p)
             ++ newline ++
           "SustainedPerformanceMode: " ++ boolToString (mSustainedPerfModeOn p)
             ++ newline)%string in
        (* Dump nodes through libperfmgr *)
        [DumpToFd fd; WriteStringToFd buf fd]
        ++ (if written then [] else [PLOG_ERROR "Failed to dump state to fd"])
        ++ [fsync fd]
      else []
  | None => []
  end.

(** ** Further vocabulary *)

(** The events that act on a collaborator, diagnostics left out. *)
Definition effects (t : list Event) : list Event :=
  List.filter (fun e => negb (is_log e)) t.

(** The kinds of version 1.0 of the interface. *)
Definition kind_1_0 (hint : PowerHint) : Prop := toUnderlying hint <= 8.

(** The three names that stand for the VR and sustained-performance modes. *)
Definition mode_names : list string :=
  ["VR_MODE"; "SUSTAINED_PERFORMANCE"; "VR_SUSTAINED_PERFORMANCE"].

(** Two active sets that hold the same mode hints. *)
Definition same_modes (a b : gset string) : Prop :=
  forall name, name ∈ mode_names -> (name ∈ a <-> name ∈ b).

(** The hint a call names. *)
Definition call_name (c : ExecutorCall) : string :=
  match c with
  | activate name _ => name
  | deactivate name => name
  end.

(** What an AUDIO_STREAMING payload asks of the Hint Executor. *)
Definition audio_streaming_calls (data : Z) : list ExecutorCall :=
  if data =? 1 then [activate "AUDIO_STREAMING" None]
  else if data =? 0 then [deactivate "AUDIO_STREAMING"]
  else if data =? 1001 then [activate "TPU_BOOST" (Some 200)]
  else if data =? 1002 then [activate "TPU_BOOST" (Some 2000)]
  else if data =? 1000 then [deactivate "TPU_BOOST"]
  else [].

(** ** Proof tools *)

Arguments lazy_or : simpl never.
Arguments powerHint : simpl never.
Arguments powerHintAsync_1_2 : simpl never.
Arguments powerHintAsync_1_3 : simpl never.
Arguments serve : simpl never.

(** Case analysis on the tests a goal still branches on. *)
Ltac branches :=
  repeat match goal with
  | |- context [if ?c then _ else _] => destruct c eqn:?; cbn
  end.

(** Closed goals about sets of hint names, settled by evaluation. *)
Ltac by_evaluation :=
  first [ exact I
        | vm_compute; reflexivity
        | apply (bool_decide_unpack _); vm_compute; exact I ].

(** * Properties *)

(** ** The gate *)

Lemma isSupportedGovernor_run file s :
  isSupportedGovernor file s = (bool_decide (supported file), s, governor_log file).
Proof.
  unfold isSupportedGovernor, governor_log, supported, governor.
  set (buf := if read_ok file then _ else _).
  destruct (String.eqb_spec buf "schedutil") as [E1|E1];
    destruct (String.eqb_spec buf "sched") as [E2|E2]; cbn;
    repeat case_bool_decide; try reflexivity; intuition congruence.
Qed.

(** [!isSupportedGovernor() || !mReady] *)
Lemma gate_run file s :
  lazy_or (notM (isSupportedGovernor file)) (notM (load mReady)) s
  = (negb (passes file s), s, governor_log file).
Proof.
  unfold lazy_or, notM, bind, passes. rewrite isSupportedGovernor_run.
  unfold governor_log. destruct (bool_decide (supported file)); reflexivity.
Qed.

Lemma governor_log_supported file : supported file -> governor_log file = [].
Proof. intros H. unfold governor_log. by rewrite bool_decide_eq_true_2. Qed.

Lemma passes_true file s : supported file -> mReady s = true -> passes file s = true.
Proof. intros H1 H2. unfold passes. by rewrite bool_decide_eq_true_2, H2. Qed.

Lemma passes_false file s :
  ~ supported file \/ mReady s = false -> passes file s = false.
Proof.
  intros [H|H]; unfold passes.
  - by rewrite bool_decide_eq_false_2.
  - rewrite H. apply andb_false_r.
Qed.

Lemma passes_inv file s : passes file s = true -> supported file /\ mReady s = true.
Proof.
  unfold passes. intros [H1 H2]%andb_true_iff. by apply bool_decide_eq_true in H1.
Qed.

Lemma schedutil_supported : supported schedutil.
Proof. left. reflexivity. Qed.

(** Each entry point returns at once, leaving the object as it was, when
    the request does not pass the gate. *)
Lemma powerHint_closed file hint data s :
  passes file s = false -> powerHint file hint data s = (tt, s, governor_log file).
Proof.
  intros H. unfold powerHint. unfold bind at 1. rewrite gate_run, H. cbn.
  by rewrite app_nil_r.
Qed.

Lemma powerHintAsync_1_2_closed file hint data s :
  passes file s = false ->
  powerHintAsync_1_2 file hint data s = (tt, s, governor_log file).
Proof.
  intros H. unfold powerHintAsync_1_2. unfold bind at 1. rewrite gate_run, H. cbn.
  by rewrite app_nil_r.
Qed.

Lemma powerHintAsync_1_3_closed file hint data s :
  passes file s = false ->
  powerHintAsync_1_3 file hint data s = (tt, s, governor_log file).
Proof.
  intros H. unfold powerHintAsync_1_3. unfold bind at 1. rewrite gate_run, H. cbn.
  by rewrite app_nil_r.
Qed.

Lemma dispatch_closed ep file hint data s :
  passes file s = false -> dispatch ep file hint data s = (tt, s, governor_log file).
Proof.
  intros H. destruct ep; cbn [dispatch]; unfold powerHintAsync;
    auto using powerHint_closed, powerHintAsync_1_2_closed, powerHintAsync_1_3_closed.
Qed.

(** A request that passes the gate runs the code after it. *)
Lemma gate_open {A} file (k : bool -> Hal A) s :
  supported file -> mReady s = true ->
  bind (lazy_or (notM (isSupportedGovernor file)) (notM (load mReady))) k s = k false s.
Proof.
  intros H1 H2. unfold bind at 1.
  rewrite gate_run, passes_true, governor_log_supported by done.
  cbn. by destruct (k false s) as [[b s2] t2].
Qed.

(** Enter the outermost entry point of the goal through its gate. *)
Ltac enter :=
  try match goal with
  | |- context [powerHintAsync_1_3 _ _ _ _] => unfold powerHintAsync_1_3
  | |- context [powerHintAsync_1_2 _ _ _ _] => unfold powerHintAsync_1_2
  | |- context [powerHint _ _ _ _] => unfold powerHint
  end;
  rewrite gate_open by (assumption || reflexivity);
  cbn.

(** Run a request that passes the gate, entry point by entry point. *)
Ltac run_entry ep :=
  destruct ep; cbn [dispatch]; unfold powerHintAsync; repeat enter.

(** ** Sequences and traces *)

Lemma serve_nil s : serve [] s = (tt, s, []).
Proof. reflexivity. Qed.

Lemma serve_cons r rs s :
  serve (r :: rs) s =
  (tt, state_of (serve rs (state_of (handle r s))),
   trace_of (handle r s) ++ trace_of (serve rs (state_of (handle r s)))).
Proof.
  unfold serve at 1; fold serve. unfold bind, state_of, trace_of.
  destruct (handle r s) as [[[] s1] t1]; cbn.
  by destruct (serve rs s1) as [[[] s2] t2].
Qed.

Lemma trace_of_serve_cons r rs s :
  trace_of (serve (r :: rs) s)
  = trace_of (handle r s) ++ trace_of (serve rs (state_of (handle r s))).
Proof. by rewrite serve_cons. Qed.

Lemma state_of_serve_cons r rs s :
  state_of (serve (r :: rs) s) = state_of (serve rs (state_of (handle r s))).
Proof. by rewrite serve_cons. Qed.

Lemma serve_app rs1 rs2 : forall s,
  trace_of (serve (rs1 ++ rs2) s)
  = trace_of (serve rs1 s) ++ trace_of (serve rs2 (state_of (serve rs1 s)))
  /\ state_of (serve (rs1 ++ rs2) s) = state_of (serve rs2 (state_of (serve rs1 s))).
Proof.
  induction rs1 as [|r rs1 IH]; intros s.
  - by rewrite serve_nil.
  - rewrite <- app_comm_cons, !trace_of_serve_cons, !state_of_serve_cons.
    destruct (IH (state_of (handle r s))) as [-> ->]. by rewrite app_assoc.
Qed.

Lemma executor_calls_app t1 t2 :
  executor_calls (t1 ++ t2) = executor_calls t1 ++ executor_calls t2.
Proof. apply omap_app. Qed.

Lemma executor_calls_governor_log file : executor_calls (governor_log file) = [].
Proof. unfold governor_log. by case_bool_decide. Qed.

Lemma governor_log_is_log file : Forall (fun e => is_log e = true) (governor_log file).
Proof. unfold governor_log. case_bool_decide; repeat constructor. Qed.

(** Diagnostics reach neither the Hint Executor, nor the Interaction
    Booster, nor the display. *)
Lemma logs_no_executor_calls t :
  Forall (fun e => is_log e = true) t -> executor_calls t = [].
Proof.
  induction 1 as [|e t He _ IH]; [done|].
  destruct e; try discriminate He; exact IH.
Qed.

Lemma logs_no_effects t :
  Forall (fun e => is_log e = true) t -> effects t = [].
Proof.
  induction 1 as [|e t He _ IH]; [done|].
  unfold effects. cbn. rewrite He. exact IH.
Qed.

(** ** Payload tests *)

Lemma gtb_pos data : 0 < data -> (data >? 0) = true.
Proof. intros H. apply Z.gtb_lt. lia. Qed.

Lemma gtb_neg data : data < 0 -> (data >? 0) = false /\ (data =? 0) = false.
Proof.
  intros H. split; [|apply Z.eqb_neq; lia].
  destruct (data >? 0) eqn:E; [|done]. apply Z.gtb_lt in E. lia.
Qed.

Lemma truthy_true data : data <> 0 -> truthy data = true.
Proof. intros H. unfold truthy. by apply negb_true_iff, Z.eqb_neq. Qed.

(** On an [int32_t] the comparison with a TPU sentinel, although made on
    [size_t], holds for the sentinel alone. *)
Lemma to_size_t_eqb data k :
  int32 data -> 0 <= k < 2 ^ 31 -> (to_size_t data =? k) = (data =? k).
Proof.
  unfold int32, to_size_t. intros Hd Hk.
  destruct (Z.neg_nonneg_cases data) as [Hneg | Hpos].
  - replace (data mod 2 ^ 64) with (data + 2 ^ 64).
    + transitivity false; [apply Z.eqb_neq | symmetry; apply Z.eqb_neq]; lia.
    + apply Z.mod_unique with (q := -1); lia.
  - rewrite Z.mod_small by lia. reflexivity.
Qed.

(** ** Single requests *)

(** The governor file matters only through being supported. *)
Lemma supported_irrelevant ep file hint data s :
  supported file -> dispatch ep file hint data s = dispatch ep schedutil hint data s.
Proof.
  intros Hs. pose proof schedutil_supported as Hs'.
  destruct (mReady s) eqn:Hr.
  - destruct hint; run_entry ep; reflexivity.
  - rewrite !dispatch_closed by (apply passes_false; auto).
    by rewrite !governor_log_supported.
Qed.

(** No entry point writes [mReady]. *)
Lemma dispatch_mReady ep file hint data s :
  mReady (state_of (dispatch ep file hint data s)) = mReady s.
Proof.
  destruct (passes file s) eqn:Hp.
  - apply passes_inv in Hp as [Hs Hr].
    destruct s as [vr sp cam rd]; cbn in Hr; subst rd.
    destruct hint; run_entry ep; branches; reflexivity.
  - by rewrite dispatch_closed.
Qed.

Lemma serve_mReady rs : forall s, mReady (state_of (serve rs s)) = mReady s.
Proof.
  induction rs as [|r rs IH]; intros s; [done|].
  rewrite state_of_serve_cons, IH. apply dispatch_mReady.
Qed.

(** A guarded request met by a set mode flag only traces and logs. *)
Lemma suppressed_request ep file hint data s :
  supported file -> mReady s = true -> suppressing s = true -> guarded_kind hint ->
  Forall (fun e => is_log e = true) (trace_of (dispatch ep file hint data s))
  /\ state_of (dispatch ep file hint data s) = s.
Proof.
  intros Hs Hr Hv Hh. destruct s as [vr sp cam rd]. unfold suppressing in Hv.
  cbn in Hr, Hv. subst rd.
  destruct Hh as [->|[->|[->| ->]]]; run_entry ep; rewrite ?Hv;
    split; by repeat constructor.
Qed.

(** CAMERA_LAUNCH with a positive payload never looks at the mode flags. *)
Lemma camera_launch_run ep file p s :
  supported file -> mReady s = true -> 0 < p ->
  ep = ep_powerHintAsync_1_2 \/ ep = ep_powerHintAsync_1_3 ->
  dispatch ep file CAMERA_LAUNCH p s
  = (tt, s, [ATRACE_INT CAMERA_LAUNCH p; ALOGD CAMERA_LAUNCH p;
             DoHint "CAMERA_LAUNCH" (Some p); DoHint "LAUNCH" (Some 2500)]).
Proof.
  intros Hs Hr Hp [-> | ->]; cbn [dispatch]; repeat enter; by rewrite (gtb_pos p Hp).
Qed.

(** An enable request that passes the gate leaves its flag set. *)
Lemma enable_sets_flag ep file hint data s :
  mode_kind hint -> data <> 0 -> passes file s = true ->
  mode_flag hint (state_of (dispatch ep file hint data s)) = true.
Proof.
  intros Hh Hd Hp. apply passes_inv in Hp as [Hs Hr].
  destruct s as [vr sp cam rd]; cbn in Hr; subst rd.
  destruct Hh as [-> | ->]; run_entry ep; rewrite (truthy_true data Hd);
    destruct vr, sp; reflexivity.
Qed.

(** An enable request that passes the gate and finds its flag clear
    activates the plain hint of its mode, or swaps the plain hint of the
    other mode for the composed one. *)
Lemma enable_from_clear ep file hint data s :
  mode_kind hint -> data <> 0 -> passes file s = true -> mode_flag hint s = false ->
  executor_calls (trace_of (dispatch ep file hint data s))
  = match hint with
    | VR_MODE =>
        if mSustainedPerfModeOn s
        then [deactivate "SUSTAINED_PERFORMANCE";
              activate "VR_SUSTAINED_PERFORMANCE" None]
        else [activate "VR_MODE" None]
    | _ =>
        if mVRModeOn s
        then [deactivate "VR_MODE"; activate "VR_SUSTAINED_PERFORMANCE" None]
        else [activate "SUSTAINED_PERFORMANCE" None]
    end.
Proof.
  intros Hh Hd Hp Hf. apply passes_inv in Hp as [Hs Hr].
  destruct s as [vr sp cam rd]; cbn in Hr; subst rd.
  destruct Hh as [-> | ->]; destruct vr, sp; cbn in Hf; try discriminate Hf;
    run_entry ep; rewrite (truthy_true data Hd); reflexivity.
Qed.

(** An enable request that finds its flag set calls nothing and changes
    nothing. *)
Lemma enable_when_set ep file hint data s :
  mode_kind hint -> data <> 0 -> mode_flag hint s = true ->
  executor_calls (trace_of (dispatch ep file hint data s)) = []
  /\ state_of (dispatch ep file hint data s) = s.
Proof.
  intros Hh Hd Hf. destruct (passes file s) eqn:Hp.
  - apply passes_inv in Hp as [Hs Hr].
    destruct s as [vr sp cam rd]; cbn in Hr; subst rd.
    destruct Hh as [-> | ->]; cbn in Hf; subst; run_entry ep;
      rewrite (truthy_true data Hd); split; reflexivity.
  - rewrite dispatch_closed by done. split; [apply executor_calls_governor_log | done].
Qed.

(** ** The active set along a call sequence *)

Section Throughout.

Variable P : gset string -> Prop.

Lemma throughout_app active calls1 calls2 :
  throughout P active calls1 ->
  throughout P (foldl apply_call active calls1) calls2 ->
  throughout P active (calls1 ++ calls2).
Proof.
  revert active. induction calls1 as [|c calls1 IH]; intros active H1 H2; cbn in *.
  - exact H2.
  - destruct H1 as [HP H1]. split; [exact HP | by apply IH].
Qed.

Lemma throughout_prefix active calls pre :
  throughout P active calls -> pre `prefix_of` calls ->
  P (foldl apply_call active pre).
Proof.
  revert active calls. induction pre as [|c pre IH]; intros active calls H Hpre.
  - destruct calls; cbn in H; tauto.
  - destruct calls as [|c' calls]; [by apply prefix_nil_not in Hpre|].
    apply prefix_cons_inv_1 in Hpre as Hc. apply prefix_cons_inv_2 in Hpre as Hrest.
    subst c'. destruct H as [_ H]. cbn. by apply (IH _ calls).
Qed.

End Throughout.

Lemma mode_hints_not_both s : ~ both_plain (mode_hints s).
Proof.
  unfold mode_hints. destruct (mVRModeOn s), (mSustainedPerfModeOn s); by_evaluation.
Qed.

(** One mode request keeps the active set in step with the flags, and never
    passes through a set holding both plain hints. *)
Lemma mode_request_step ep file hint data s :
  mode_kind hint ->
  throughout (fun a => ~ both_plain a) (mode_hints s)
    (executor_calls (trace_of (dispatch ep file hint data s)))
  /\ foldl apply_call (mode_hints s)
       (executor_calls (trace_of (dispatch ep file hint data s)))
     = mode_hints (state_of (dispatch ep file hint data s)).
Proof.
  intros Hh. destruct (passes file s) eqn:Hp.
  - apply passes_inv in Hp as [Hs Hr].
    destruct s as [vr sp cam rd]; cbn in Hr; subst rd.
    destruct Hh as [-> | ->]; run_entry ep; destruct (truthy data), vr, sp;
      cbn; unfold mode_hints; cbn; repeat split; by_evaluation.
  - rewrite dispatch_closed by done. cbn [trace_of state_of fst snd].
    rewrite executor_calls_governor_log. cbn.
    split; [|reflexivity]. split; [apply mode_hints_not_both | exact I].
Qed.

Lemma mode_requests_steps rs : forall s,
  Forall (fun r => mode_kind (req_hint r)) rs ->
  throughout (fun a => ~ both_plain a) (mode_hints s)
    (executor_calls (trace_of (serve rs s)))
  /\ foldl apply_call (mode_hints s) (executor_calls (trace_of (serve rs s)))
     = mode_hints (state_of (serve rs s)).
Proof.
  induction rs as [|r rs IH]; intros s Hall.
  - rewrite serve_nil. cbn. split; [|reflexivity].
    split; [apply mode_hints_not_both | exact I].
  - apply Forall_cons in Hall as [Hr Hall].
    rewrite trace_of_serve_cons, state_of_serve_cons, executor_calls_app, foldl_app.
    destruct (mode_request_step (req_entry r) (req_governor r) (req_hint r)
                (req_data r) s Hr) as [Hthru Hend].
    fold (handle r) in Hthru, Hend.
    destruct (IH (state_of (handle r s)) Hall) as [IHthru IHend].
    rewrite Hend. split; [|exact IHend].
    apply throughout_app; [exact Hthru | by rewrite Hend].
Qed.

(** * The claims *)

(** ** C1: the VR / sustained-performance scenario *)

(** C1. From the object with no mode flag set and [mReady] true, under a
    supported governor, the requests VR_MODE(1), SUSTAINED_PERFORMANCE(1),
    VR_MODE(0), each through any entry point, issue exactly
    activate VR_MODE; deactivate VR_MODE, activate VR_SUSTAINED_PERFORMANCE;
    deactivate VR_SUSTAINED_PERFORMANCE, deactivate VR_MODE,
    activate SUSTAINED_PERFORMANCE; and leave [mSustainedPerfModeOn] as the
    only mode flag set. *)
Theorem vr_sustained_scenario file ep1 ep2 ep3 :
  supported file ->
  executor_calls (trace_of (serve
    [mkRequest ep1 file VR_MODE 1;
     mkRequest ep2 file SUSTAINED_PERFORMANCE 1;
     mkRequest ep3 file VR_MODE 0] (mkPower false false false true)))
  = [activate "VR_MODE" None;
     deactivate "VR_MODE"; activate "VR_SUSTAINED_PERFORMANCE" None;
     deactivate "VR_SUSTAINED_PERFORMANCE"; deactivate "VR_MODE";
     activate "SUSTAINED_PERFORMANCE" None]
  /\ state_of (serve
    [mkRequest ep1 file VR_MODE 1;
     mkRequest ep2 file SUSTAINED_PERFORMANCE 1;
     mkRequest ep3 file VR_MODE 0] (mkPower false false false true))
  = mkPower false true false true.
Proof.
  intros Hs. rewrite !serve_cons, !serve_nil. unfold handle.
  cbn [req_entry req_governor req_hint req_data].
  rewrite !(supported_irrelevant _ file) by exact Hs.
  destruct ep1, ep2, ep3; vm_compute; split; reflexivity.
Qed.

Lemma vr_sustained_scenario_witness :
  supported schedutil
  /\ executor_calls (trace_of (serve
    [mkRequest ep_powerHint schedutil VR_MODE 1;
     mkRequest ep_powerHint schedutil SUSTAINED_PERFORMANCE 1;
     mkRequest ep_powerHint schedutil VR_MODE 0] (mkPower false false false true)))
  = [activate "VR_MODE" None;
     deactivate "VR_MODE"; activate "VR_SUSTAINED_PERFORMANCE" None;
     deactivate "VR_SUSTAINED_PERFORMANCE"; deactivate "VR_MODE";
     activate "SUSTAINED_PERFORMANCE" None]
  /\ state_of (serve
       [mkRequest ep_powerHint schedutil VR_MODE 1;
        mkRequest ep_powerHint schedutil SUSTAINED_PERFORMANCE 1;
        mkRequest ep_powerHint schedutil VR_MODE 0] (mkPower false false false true))
     = mkPower false true false true.
Proof.
  split; [exact schedutil_supported|].
  apply (vr_sustained_scenario schedutil ep_powerHint ep_powerHint ep_powerHint).
  exact schedutil_supported.
Defined.

(** ** C2: the composed hint *)

(** C2. Serve any sequence of VR_MODE and SUSTAINED_PERFORMANCE requests,
    of any payloads and through any entry points, to an object whose two
    mode flags are clear and whose Hint Executor holds no hint.  At no
    point of the resulting call sequence are the plain hints VR_MODE and
    SUSTAINED_PERFORMANCE both active; and when the sequence leaves
    [mVRModeOn] and [mSustainedPerfModeOn] both set, the active set is the
    composed hint VR_SUSTAINED_PERFORMANCE alone. *)
Theorem composed_hint_invariant rs s :
  mVRModeOn s = false -> mSustainedPerfModeOn s = false ->
  Forall (fun r => req_hint r = VR_MODE \/ req_hint r = SUSTAINED_PERFORMANCE) rs ->
  (forall calls, calls `prefix_of` executor_calls (trace_of (serve rs s)) ->
     ~ ("VR_MODE" ∈ active_after calls
        /\ "SUSTAINED_PERFORMANCE" ∈ active_after calls))
  /\ (mVRModeOn (state_of (serve rs s)) = true ->
      mSustainedPerfModeOn (state_of (serve rs s)) = true ->
      active_after (executor_calls (trace_of (serve rs s)))
      = {["VR_SUSTAINED_PERFORMANCE"]}).
Proof.
  intros Hvr Hsp Hall.
  destruct (mode_requests_steps rs s Hall) as [Hthru Hend].
  assert (mode_hints s = ∅) as Hinit by (unfold mode_hints; by rewrite Hvr, Hsp).
  rewrite Hinit in Hthru, Hend. split.
  - intros calls Hpre. exact (throughout_prefix _ _ _ _ Hthru Hpre).
  - intros Hvr' Hsp'. unfold active_after. rewrite Hend.
    unfold mode_hints. by rewrite Hvr', Hsp'.
Qed.

Lemma composed_hint_invariant_witness :
  mVRModeOn (mkPower false false false true) = false
  /\ mSustainedPerfModeOn (mkPower false false false true) = false
  /\ Forall (fun r => req_hint r = VR_MODE \/ req_hint r = SUSTAINED_PERFORMANCE)
       [mkRequest ep_powerHint schedutil SUSTAINED_PERFORMANCE 1;
        mkRequest ep_powerHintAsync_1_2 schedutil VR_MODE 1]
  /\ active_after (executor_calls (trace_of (serve
       [mkRequest ep_powerHint schedutil SUSTAINED_PERFORMANCE 1;
        mkRequest ep_powerHintAsync_1_2 schedutil VR_MODE 1]
       (mkPower false false false true))))
     = {["VR_SUSTAINED_PERFORMANCE"]}.
Proof.
  assert (Forall (fun r => req_hint r = VR_MODE \/ req_hint r = SUSTAINED_PERFORMANCE)
       [mkRequest ep_powerHint schedutil SUSTAINED_PERFORMANCE 1;
        mkRequest ep_powerHintAsync_1_2 schedutil VR_MODE 1]) as Hall.
  { constructor; [right; reflexivity|]. constructor; [left; reflexivity|]. constructor. }
  do 2 (split; [reflexivity|]). split; [exact Hall|].
  apply (composed_hint_invariant _ (mkPower false false false true) eq_refl eq_refl Hall);
    reflexivity.
Defined.

(** ** C3 and C4: suppression *)

(** C3. While [mVRModeOn] is set, the governor is supported and the object
    is ready, an INTERACTION, LAUNCH, AUDIO_STREAMING or
    EXPENSIVE_RENDERING request of any payload, through any entry point,
    issues no Hint Executor call; it emits diagnostics only and leaves the
    object as it was. *)
Theorem vr_mode_suppresses ep file hint data s :
  supported file -> mReady s = true -> mVRModeOn s = true ->
  hint = INTERACTION \/ hint = LAUNCH \/ hint = AUDIO_STREAMING
    \/ hint = EXPENSIVE_RENDERING ->
  executor_calls (trace_of (dispatch ep file hint data s)) = []
  /\ Forall (fun e => is_log e = true) (trace_of (dispatch ep file hint data s))
  /\ state_of (dispatch ep file hint data s) = s.
Proof.
  intros Hs Hr Hv Hh.
  destruct (suppressed_request ep file hint data s) as [Hlog Hst]; auto.
  { unfold suppressing. by rewrite Hv. }
  auto using logs_no_executor_calls.
Qed.

Lemma vr_mode_suppresses_witness :
  supported schedutil
  /\ mReady (mkPower true false false true) = true
  /\ mVRModeOn (mkPower true false false true) = true
  /\ executor_calls (trace_of (dispatch ep_powerHintAsync_1_3 schedutil
       EXPENSIVE_RENDERING 1 (mkPower true false false true))) = []
  /\ Forall (fun e => is_log e = true) (trace_of (dispatch ep_powerHintAsync_1_3
       schedutil EXPENSIVE_RENDERING 1 (mkPower true false false true)))
  /\ state_of (dispatch ep_powerHintAsync_1_3 schedutil EXPENSIVE_RENDERING 1
       (mkPower true false false true)) = mkPower true false false true.
Proof.
  split; [exact schedutil_supported|]. do 2 (split; [reflexivity|]).
  apply (vr_mode_suppresses ep_powerHintAsync_1_3 schedutil EXPENSIVE_RENDERING 1
           (mkPower true false false true)).
  - exact schedutil_supported.
  - reflexivity.
  - reflexivity.
  - right; right; right; reflexivity.
Defined.

(** C4, as stated, fails: with [mVRModeOn] set, CAMERA_LAUNCH with payload
    1 reaches the Hint Executor twice. *)
Lemma camera_launch_suppressed_counterexample :
  suppressing (mkPower true false false true) = true
  /\ 0 < 1
  /\ executor_calls (trace_of (powerHintAsync_1_2 schedutil CAMERA_LAUNCH 1
                                 (mkPower true false false true)))
     = [activate "CAMERA_LAUNCH" (Some 1); activate "LAUNCH" (Some 2500)]
  /\ executor_calls (trace_of (powerHintAsync_1_2 schedutil CAMERA_LAUNCH 1
                                 (mkPower true false false true))) <> [].
Proof. vm_compute. repeat split; discriminate. Qed.

(** C4, amended. While [mVRModeOn || mSustainedPerfModeOn] holds (governor
    supported, object ready), the requests whose effect is entirely skipped
    are INTERACTION, LAUNCH, AUDIO_STREAMING and EXPENSIVE_RENDERING: they
    issue no Hint Executor call, reach no other collaborator either (every
    event of theirs is a diagnostic, so the interaction handler is not
    called) and leave the object as it was.
    CAMERA_LAUNCH is not among them: with a payload [p > 0] it still
    activates CAMERA_LAUNCH for [p] ms and LAUNCH for 2500 ms. *)
Theorem suppression_spares_camera_launch file s :
  supported file -> mReady s = true -> suppressing s = true ->
  (forall ep hint data, guarded_kind hint ->
     executor_calls (trace_of (dispatch ep file hint data s)) = []
     /\ Forall (fun e => is_log e = true) (trace_of (dispatch ep file hint data s))
     /\ effects (trace_of (dispatch ep file hint data s)) = []
     /\ state_of (dispatch ep file hint data s) = s)
  /\ (forall ep p, 0 < p ->
        ep = ep_powerHintAsync_1_2 \/ ep = ep_powerHintAsync_1_3 ->
        executor_calls (trace_of (dispatch ep file CAMERA_LAUNCH p s))
        = [activate "CAMERA_LAUNCH" (Some p); activate "LAUNCH" (Some 2500)]).
Proof.
  intros Hs Hr Hv. split.
  - intros ep hint data Hh.
    destruct (suppressed_request ep file hint data s) as [Hlog Hst]; auto.
    split; [by apply logs_no_executor_calls|]. split; [exact Hlog|].
    split; [by apply logs_no_effects | exact Hst].
  - intros ep p Hp Hep. by rewrite camera_launch_run.
Qed.

Lemma suppression_spares_camera_launch_witness :
  supported schedutil
  /\ mReady (mkPower false true false true) = true
  /\ suppressing (mkPower false true false true) = true
  /\ executor_calls (trace_of (dispatch ep_powerHintAsync_1_3 schedutil CAMERA_LAUNCH 40
                                 (mkPower false true false true)))
     = [activate "CAMERA_LAUNCH" (Some 40); activate "LAUNCH" (Some 2500)]
  /\ executor_calls (trace_of (dispatch ep_powerHint schedutil LAUNCH 1
                                 (mkPower false true false true))) = []
  /\ effects (trace_of (dispatch ep_powerHint schedutil INTERACTION 80
                          (mkPower false true false true))) = []
  /\ trace_of (dispatch ep_powerHint schedutil INTERACTION 80
                 (mkPower false true false true))
     = [ATRACE_INT INTERACTION 80; ALOGV ignoring "powerHint"].
Proof.
  pose proof (suppression_spares_camera_launch schedutil (mkPower false true false true)
                schedutil_supported eq_refl eq_refl) as [Hskip Hcam].
  split; [exact schedutil_supported|]. do 2 (split; [reflexivity|]). split.
  - apply (Hcam ep_powerHintAsync_1_3 40); [lia | right; reflexivity].
  - split.
    + apply (Hskip ep_powerHint LAUNCH 1). right; left; reflexivity.
    + split; [|reflexivity].
      apply (Hskip ep_powerHint INTERACTION 80). left; reflexivity.
Defined.

(** ** C5 and C6: camera requests *)

(** C5. With the governor supported and the object ready, CAMERA_LAUNCH
    with a payload [p > 0] issues, whatever the mode flags are, exactly
    activate CAMERA_LAUNCH for [p] ms and then activate LAUNCH for 2500 ms,
    through [powerHintAsync_1_2] as through [powerHintAsync_1_3]; and it
    does so after any history of requests, whatever that history activated. *)
Theorem camera_launch_two_activations file p s :
  supported file -> mReady s = true -> 0 < p ->
  executor_calls (trace_of (powerHintAsync_1_2 file CAMERA_LAUNCH p s))
    = [activate "CAMERA_LAUNCH" (Some p); activate "LAUNCH" (Some 2500)]
  /\ executor_calls (trace_of (powerHintAsync_1_3 file CAMERA_LAUNCH p s))
    = [activate "CAMERA_LAUNCH" (Some p); activate "LAUNCH" (Some 2500)]
  /\ (forall history ep,
        ep = ep_powerHintAsync_1_2 \/ ep = ep_powerHintAsync_1_3 ->
        executor_calls (trace_of
          (serve (history ++ [mkRequest ep file CAMERA_LAUNCH p]) s))
        = executor_calls (trace_of (serve history s))
          ++ [activate "CAMERA_LAUNCH" (Some p); activate "LAUNCH" (Some 2500)]).
Proof.
  intros Hs Hr Hp.
  pose proof (camera_launch_run ep_powerHintAsync_1_2 file p s Hs Hr Hp) as H2.
  pose proof (camera_launch_run ep_powerHintAsync_1_3 file p s Hs Hr Hp) as H3.
  cbn [dispatch] in H2, H3. rewrite H2, H3 by auto. do 2 (split; [reflexivity|]).
  intros history ep Hep.
  destruct (serve_app history [mkRequest ep file CAMERA_LAUNCH p] s) as [-> _].
  rewrite executor_calls_app, trace_of_serve_cons, serve_nil. unfold handle.
  cbn [req_entry req_governor req_hint req_data].
  rewrite camera_launch_run by (rewrite ?serve_mReady; done).
  reflexivity.
Qed.

Lemma camera_launch_two_activations_witness :
  supported schedutil /\ mReady (mkPower true true true true) = true /\ 0 < 300
  /\ executor_calls (trace_of (powerHintAsync_1_2 schedutil CAMERA_LAUNCH 300
                                 (mkPower true true true true)))
     = [activate "CAMERA_LAUNCH" (Some 300); activate "LAUNCH" (Some 2500)]
  /\ executor_calls (trace_of (powerHintAsync_1_3 schedutil CAMERA_LAUNCH 300
                                 (mkPower true true true true)))
     = [activate "CAMERA_LAUNCH" (Some 300); activate "LAUNCH" (Some 2500)].
Proof.
  split; [exact schedutil_supported|]. split; [reflexivity|]. split; [lia|].
  destruct (camera_launch_two_activations schedutil 300 (mkPower true true true true)
              schedutil_supported eq_refl ltac:(lia)) as (H2 & H3 & _).
  split; [exact H2 | exact H3].
Defined.

(** C6. With the governor supported and the object ready, CAMERA_STREAMING
    with payload 0 deactivates CAMERA_STREAMING, then activates
    CAMERA_LAUNCH for exactly 1000 ms, and clears
    [mCameraStreamingModeOn] whatever its value was; the other flags keep
    their values. *)
Theorem camera_streaming_stop ep file s :
  supported file -> mReady s = true ->
  ep = ep_powerHintAsync_1_2 \/ ep = ep_powerHintAsync_1_3 ->
  executor_calls (trace_of (dispatch ep file CAMERA_STREAMING 0 s))
    = [deactivate "CAMERA_STREAMING"; activate "CAMERA_LAUNCH" (Some 1000)]
  /\ state_of (dispatch ep file CAMERA_STREAMING 0 s)
    = set_mCameraStreamingModeOn false s.
Proof.
  intros Hs Hr [-> | ->]; cbn [dispatch]; repeat enter; done.
Qed.

Lemma camera_streaming_stop_witness :
  supported schedutil /\ mReady (mkPower false false true true) = true
  /\ executor_calls (trace_of (dispatch ep_powerHintAsync_1_2 schedutil
       CAMERA_STREAMING 0 (mkPower false false true true)))
     = [deactivate "CAMERA_STREAMING"; activate "CAMERA_LAUNCH" (Some 1000)]
  /\ state_of (dispatch ep_powerHintAsync_1_2 schedutil CAMERA_STREAMING 0
       (mkPower false false true true))
     = mkPower false false false true.
Proof.
  split; [exact schedutil_supported|]. split; [reflexivity|].
  apply (camera_streaming_stop ep_powerHintAsync_1_2 schedutil
           (mkPower false false true true)).
  - exact schedutil_supported.
  - reflexivity.
  - left; reflexivity.
Defined.

(** ** C7: enabling twice *)

(** C7. A VR_MODE or SUSTAINED_PERFORMANCE request with a truthy payload,
    served twice in a row from any object, issues the Hint Executor calls
    of its first service alone: the second service issues none and leaves
    every flag as the first left it.  The reason is the flag: a first
    service that passes the gate leaves the flag of its mode set, having
    activated the hint of that mode if the flag was clear (the plain hint,
    or the composed one in place of the other mode's plain hint). *)
Theorem enable_twice r s :
  req_hint r = VR_MODE \/ req_hint r = SUSTAINED_PERFORMANCE ->
  req_data r <> 0 ->
  executor_calls (trace_of (handle r (state_of (handle r s)))) = []
  /\ state_of (handle r (state_of (handle r s))) = state_of (handle r s)
  /\ executor_calls (trace_of (serve [r; r] s))
     = executor_calls (trace_of (handle r s))
  /\ state_of (serve [r; r] s) = state_of (handle r s)
  /\ (supported (req_governor r) -> mReady s = true ->
      mode_flag (req_hint r) (state_of (handle r s)) = true
      /\ (mode_flag (req_hint r) s = false ->
          executor_calls (trace_of (handle r s))
          = match req_hint r with
            | VR_MODE =>
                if mSustainedPerfModeOn s
                then [deactivate "SUSTAINED_PERFORMANCE";
                      activate "VR_SUSTAINED_PERFORMANCE" None]
                else [activate "VR_MODE" None]
            | _ =>
                if mVRModeOn s
                then [deactivate "VR_MODE"; activate "VR_SUSTAINED_PERFORMANCE" None]
                else [activate "SUSTAINED_PERFORMANCE" None]
            end)).
Proof.
  intros Hh Hd. destruct r as [ep file hint data]. unfold handle in *. cbn in *.
  assert (executor_calls (trace_of (dispatch ep file hint data
            (state_of (dispatch ep file hint data s)))) = []
          /\ state_of (dispatch ep file hint data (state_of (dispatch ep file hint data s)))
             = state_of (dispatch ep file hint data s)) as [Hcalls Hst].
  { destruct (passes file s) eqn:Hp.
    - apply enable_when_set; [done..|]. by apply enable_sets_flag.
    - rewrite (dispatch_closed ep file hint data s) by done.
      cbn [state_of fst snd]. rewrite dispatch_closed by done.
      split; [apply executor_calls_governor_log | done]. }
  do 2 (split; [done|]). split; [|split].
  - rewrite !trace_of_serve_cons, serve_nil. unfold handle.
    cbn [req_entry req_governor req_hint req_data].
    rewrite !executor_calls_app, Hcalls. change (trace_of (tt, _, [])) with (@nil Event).
    by rewrite !app_nil_r.
  - rewrite !state_of_serve_cons, serve_nil. unfold handle.
    cbn [req_entry req_governor req_hint req_data]. exact Hst.
  - intros Hs Hr. pose proof (passes_true file s Hs Hr) as Hp. split.
    + by apply enable_sets_flag.
    + intros Hf. by apply enable_from_clear.
Qed.

Lemma enable_twice_witness :
  (req_hint (mkRequest ep_powerHint schedutil SUSTAINED_PERFORMANCE 1) = VR_MODE
   \/ req_hint (mkRequest ep_powerHint schedutil SUSTAINED_PERFORMANCE 1)
      = SUSTAINED_PERFORMANCE)
  /\ req_data (mkRequest ep_powerHint schedutil SUSTAINED_PERFORMANCE 1) <> 0
  /\ executor_calls (trace_of (handle
       (mkRequest ep_powerHint schedutil SUSTAINED_PERFORMANCE 1)
       (state_of (handle (mkRequest ep_powerHint schedutil SUSTAINED_PERFORMANCE 1)
                    (mkPower true false false true))))) = []
  /\ executor_calls (trace_of (serve
       [mkRequest ep_powerHint schedutil SUSTAINED_PERFORMANCE 1;
        mkRequest ep_powerHint schedutil SUSTAINED_PERFORMANCE 1]
       (mkPower true false false true)))
     = executor_calls (trace_of (handle
         (mkRequest ep_powerHint schedutil SUSTAINED_PERFORMANCE 1)
         (mkPower true false false true)))
  /\ mode_flag SUSTAINED_PERFORMANCE (state_of (handle
       (mkRequest ep_powerHint schedutil SUSTAINED_PERFORMANCE 1)
       (mkPower true false false true))) = true
  /\ executor_calls (trace_of (handle
       (mkRequest ep_powerHint schedutil SUSTAINED_PERFORMANCE 1)
       (mkPower true false false true)))
     = [deactivate "VR_MODE"; activate "VR_SUSTAINED_PERFORMANCE" None]
  /\ executor_calls (trace_of (serve
       [mkRequest ep_powerHint schedutil SUSTAINED_PERFORMANCE 1;
        mkRequest ep_powerHint schedutil SUSTAINED_PERFORMANCE 1]
       (mkPower true false false true)))
     = [deactivate "VR_MODE"; activate "VR_SUSTAINED_PERFORMANCE" None].
Proof.
  split; [right; reflexivity|]. split; [discriminate|].
  destruct (enable_twice (mkRequest ep_powerHint schedutil SUSTAINED_PERFORMANCE 1)
              (mkPower true false false true) (or_intror eq_refl))
    as (Hsecond & _ & Hboth & _ & Hfirst).
  - discriminate.
  - destruct (Hfirst schedutil_supported eq_refl) as [Hflag Hcalls].
    specialize (Hcalls eq_refl).
    split; [exact Hsecond|]. split; [exact Hboth|]. split; [exact Hflag|].
    split; [exact Hcalls|]. rewrite Hboth. exact Hcalls.
Defined.

(** ** C8: the closed gate *)

(** C8. A request that meets [mReady] false or an unsupported governor is
    dropped, whatever its kind, payload and entry point: it reaches neither
    the Hint Executor nor any other collaborator but the logger, and the
    object keeps all its flags.  So does every sequence of such requests. *)
Theorem closed_gate_drops_all rs s :
  Forall (fun r => ~ supported (req_governor r) \/ mReady s = false) rs ->
  executor_calls (trace_of (serve rs s)) = []
  /\ Forall (fun e => is_log e = true) (trace_of (serve rs s))
  /\ state_of (serve rs s) = s.
Proof.
  intros Hall.
  assert (Forall (fun e => is_log e = true) (trace_of (serve rs s))
          /\ state_of (serve rs s) = s) as [Hlog Hst].
  { induction Hall as [|r rs Hr _ [IHlog IHst]]; [by split|].
    rewrite trace_of_serve_cons, state_of_serve_cons. unfold handle.
    rewrite dispatch_closed by (by apply passes_false).
    cbn [state_of trace_of fst snd]. split; [|exact IHst].
    apply Forall_app. split; [apply governor_log_is_log | exact IHlog]. }
  auto using logs_no_executor_calls.
Qed.

Lemma interactive_unsupported : ~ supported (mkReadFile true "interactive").
Proof. intros [H | H]; discriminate H. Qed.

Lemma failed_read_unsupported :
  ~ supported (mkReadFile false ("schedutil" ++ String "010" "")%string).
Proof. intros [H | H]; discriminate H. Qed.

Lemma closed_gate_drops_all_witness :
  Forall (fun r => ~ supported (req_governor r)
                   \/ mReady (mkPower true false true true) = false)
    [mkRequest ep_powerHint (mkReadFile true "interactive") VR_MODE 0;
     mkRequest ep_powerHintAsync_1_2
       (mkReadFile false ("schedutil" ++ String "010" "")%string) CAMERA_STREAMING 0]
  /\ executor_calls (trace_of (serve
       [mkRequest ep_powerHint (mkReadFile true "interactive") VR_MODE 0;
        mkRequest ep_powerHintAsync_1_2
          (mkReadFile false ("schedutil" ++ String "010" "")%string) CAMERA_STREAMING 0]
       (mkPower true false true true))) = []
  /\ state_of (serve
       [mkRequest ep_powerHint (mkReadFile true "interactive") VR_MODE 0;
        mkRequest ep_powerHintAsync_1_2
          (mkReadFile false ("schedutil" ++ String "010" "")%string) CAMERA_STREAMING 0]
       (mkPower true false true true))
     = mkPower true false true true.
Proof.
  assert (Forall (fun r => ~ supported (req_governor r)
                           \/ mReady (mkPower true false true true) = false)
    [mkRequest ep_powerHint (mkReadFile true "interactive") VR_MODE 0;
     mkRequest ep_powerHintAsync_1_2
       (mkReadFile false ("schedutil" ++ String "010" "")%string) CAMERA_STREAMING 0])
    as Hall.
  { constructor; [left; exact interactive_unsupported|].
    constructor; [left; exact failed_read_unsupported|]. constructor. }
  split; [exact Hall|].
  destruct (closed_gate_drops_all _ (mkPower true false true true) Hall)
    as (Hcalls & _ & Hst).
  split; [exact Hcalls | exact Hst].
Defined.

(** ** C9: invalid payloads *)

(** C9, as stated, fails: with [mVRModeOn] set, the AUDIO_STREAMING payload
    7, which is none of 0, 1, 1000, 1001, 1002, is dropped by the
    suppression guard and no error is logged. *)
Lemma invalid_payload_logged_counterexample :
  int32 7 /\ invalid_payload AUDIO_STREAMING 7
  /\ error_logs (trace_of (powerHintAsync_1_2 schedutil AUDIO_STREAMING 7
                             (mkPower true false false true))) = []
  /\ trace_of (powerHintAsync_1_2 schedutil AUDIO_STREAMING 7
                 (mkPower true false false true))
     = [ATRACE_INT AUDIO_STREAMING 7; ALOGD AUDIO_STREAMING 7;
        ALOGV ignoring "powerHintAsync_1_2"].
Proof.
  split; [unfold int32; lia|]. split; [cbn; lia|]. split; vm_compute; reflexivity.
Qed.

(** C9, amended. A request whose [int32_t] payload is invalid for its kind
    (negative for CAMERA_LAUNCH, CAMERA_STREAMING, CAMERA_SHOT; none of 0,
    1, 1000, 1001, 1002 for AUDIO_STREAMING) returns normally having made
    no Hint Executor call and changed no flag, from any object and through
    any entry point.  It logs its error when it passes the gate, comes
    through [powerHintAsync_1_2] or [powerHintAsync_1_3] and, for
    AUDIO_STREAMING, neither [mVRModeOn] nor [mSustainedPerfModeOn] is
    set.  An AUDIO_STREAMING request that passes the gate while one of the
    two flags is set is dropped before its payload is looked at and logs
    no error. *)
Theorem invalid_payload_ignored ep file hint data s :
  int32 data -> invalid_payload hint data ->
  dispatch ep file hint data s = (tt, s, trace_of (dispatch ep file hint data s))
  /\ executor_calls (trace_of (dispatch ep file hint data s)) = []
  /\ Forall (fun e => is_log e = true) (trace_of (dispatch ep file hint data s))
  /\ (supported file -> mReady s = true ->
      ep = ep_powerHintAsync_1_2 \/ ep = ep_powerHintAsync_1_3 ->
      (hint = AUDIO_STREAMING -> suppressing s = false) ->
      error_logs (trace_of (dispatch ep file hint data s))
      = invalid_data_error hint data)
  /\ (supported file -> mReady s = true ->
      hint = AUDIO_STREAMING -> suppressing s = true ->
      error_logs (trace_of (dispatch ep file hint data s)) = []).
Proof.
  intros Hd Hinv.
  assert (supported file -> mReady s = true ->
          hint = AUDIO_STREAMING -> suppressing s = true ->
          error_logs (trace_of (dispatch ep file hint data s)) = []) as Hquiet.
  { intros Hs Hr -> Hv. destruct s as [vr sp cam rd]. unfold suppressing in Hv.
    cbn in Hr, Hv. subst rd. run_entry ep; rewrite ?Hv; reflexivity. }
  assert (dispatch ep file hint data s = (tt, s, trace_of (dispatch ep file hint data s))
          /\ Forall (fun e => is_log e = true) (trace_of (dispatch ep file hint data s))
          /\ (supported file -> mReady s = true ->
              ep = ep_powerHintAsync_1_2 \/ ep = ep_powerHintAsync_1_3 ->
              (hint = AUDIO_STREAMING -> suppressing s = false) ->
              error_logs (trace_of (dispatch ep file hint data s))
              = invalid_data_error hint data)) as (Hrun & Hlog & Herr).
  { destruct (passes file s) eqn:Hp.
    - apply passes_inv in Hp as [Hs Hr].
      destruct s as [vr sp cam rd]; cbn in Hr; subst rd.
      destruct hint; try contradiction; cbn in Hinv.
      + (* AUDIO_STREAMING *)
        destruct Hinv as (H0 & H1 & H1000 & H1001 & H1002).
        assert ((data =? 1) = false /\ (data =? 0) = false
                /\ (to_size_t data =? kTpuBoostShort) = false
                /\ (to_size_t data =? kTpuBoostLong) = false
                /\ (to_size_t data =? kTpuBoostStop) = false) as (E1 & E0 & Es & El & Et).
        { rewrite !to_size_t_eqb by (done || (unfold kTpuBoostShort, kTpuBoostLong,
                                                kTpuBoostStop; lia)).
          unfold kTpuBoostShort, kTpuBoostLong, kTpuBoostStop.
          repeat split; apply Z.eqb_neq; assumption. }
        run_entry ep; rewrite ?E1, ?E0, ?Es, ?El, ?Et; destruct vr, sp; cbn;
          (split; [reflexivity|]); (split; [by repeat constructor|]);
          intros _ _ Hep Hsup; try reflexivity;
          try (by destruct Hep); by specialize (Hsup eq_refl).
      + (* CAMERA_LAUNCH *)
        destruct (gtb_neg data Hinv) as [Eg E0].
        run_entry ep; rewrite ?Eg, ?E0; cbn;
          (split; [reflexivity|]); (split; [by repeat constructor|]);
          intros _ _ Hep _; try reflexivity; by destruct Hep.
      + (* CAMERA_STREAMING *)
        destruct (gtb_neg data Hinv) as [Eg E0].
        run_entry ep; rewrite ?Eg, ?E0; cbn;
          (split; [reflexivity|]); (split; [by repeat constructor|]);
          intros _ _ Hep _; try reflexivity; by destruct Hep.
      + (* CAMERA_SHOT *)
        destruct (gtb_neg data Hinv) as [Eg E0].
        run_entry ep; rewrite ?Eg, ?E0; cbn;
          (split; [reflexivity|]); (split; [by repeat constructor|]);
          intros _ _ Hep _; try reflexivity; by destruct Hep.
    - rewrite dispatch_closed by done. cbn [trace_of snd].
      split; [reflexivity|]. split; [apply governor_log_is_log|].
      intros Hs Hr. by rewrite passes_true in Hp. }
  split; [exact Hrun|]. split; [by apply logs_no_executor_calls|].
  split; [exact Hlog|]. split; [exact Herr | exact Hquiet].
Qed.

Lemma invalid_payload_ignored_witness :
  int32 (-5) /\ invalid_payload CAMERA_SHOT (-5)
  /\ executor_calls (trace_of (dispatch ep_powerHintAsync_1_2 schedutil CAMERA_SHOT (-5)
                                 (mkPower false false false true))) = []
  /\ state_of (dispatch ep_powerHintAsync_1_2 schedutil CAMERA_SHOT (-5)
                 (mkPower false false false true)) = mkPower false false false true
  /\ error_logs (trace_of (dispatch ep_powerHintAsync_1_2 schedutil CAMERA_SHOT (-5)
                             (mkPower false false false true)))
     = [ALOGE "CAMERA SHOT INVALID DATA: %d" (-5)]
  /\ int32 7 /\ invalid_payload AUDIO_STREAMING 7
  /\ error_logs (trace_of (dispatch ep_powerHintAsync_1_2 schedutil AUDIO_STREAMING 7
                             (mkPower false false false true)))
     = [ALOGE "AUDIO STREAMING INVALID DATA: %d" 7]
  /\ error_logs (trace_of (dispatch ep_powerHintAsync_1_2 schedutil AUDIO_STREAMING 7
                             (mkPower false true false true))) = [].
Proof.
  assert (int32 (-5)) as Hd by (unfold int32; lia).
  assert (invalid_payload CAMERA_SHOT (-5)) as Hinv by (cbn; lia).
  assert (int32 7) as Hd7 by (unfold int32; lia).
  assert (invalid_payload AUDIO_STREAMING 7) as Hinv7 by (cbn; lia).
  destruct (invalid_payload_ignored ep_powerHintAsync_1_2 schedutil CAMERA_SHOT (-5)
              (mkPower false false false true) Hd Hinv)
    as (Hrun & Hcalls & _ & Herr & _).
  destruct (invalid_payload_ignored ep_powerHintAsync_1_2 schedutil AUDIO_STREAMING 7
              (mkPower false false false true) Hd7 Hinv7) as (_ & _ & _ & Herr7 & _).
  destruct (invalid_payload_ignored ep_powerHintAsync_1_2 schedutil AUDIO_STREAMING 7
              (mkPower false true false true) Hd7 Hinv7) as (_ & _ & _ & _ & Hquiet).
  split; [exact Hd|]. split; [exact Hinv|]. split; [exact Hcalls|].
  split; [by rewrite Hrun|]. split.
  { apply Herr.
    - exact schedutil_supported.
    - reflexivity.
    - left; reflexivity.
    - discriminate. }
  split; [exact Hd7|]. split; [exact Hinv7|]. split.
  { apply Herr7.
    - exact schedutil_supported.
    - reflexivity.
    - left; reflexivity.
    - reflexivity. }
  apply Hquiet.
  - exact schedutil_supported.
  - reflexivity.
  - reflexivity.
  - reflexivity.
Defined.

(** ** C10: frame *)

(** C10. A request of a kind other than VR_MODE and SUSTAINED_PERFORMANCE
    leaves [mVRModeOn] and [mSustainedPerfModeOn] as they were, whatever
    the payload, the object and the entry point; unless its kind is
    CAMERA_STREAMING it leaves [mCameraStreamingModeOn] as it was too. *)
Theorem mode_flags_frame ep file hint data s :
  hint <> VR_MODE -> hint <> SUSTAINED_PERFORMANCE ->
  mVRModeOn (state_of (dispatch ep file hint data s)) = mVRModeOn s
  /\ mSustainedPerfModeOn (state_of (dispatch ep file hint data s))
     = mSustainedPerfModeOn s
  /\ (hint <> CAMERA_STREAMING ->
      mode_flags (state_of (dispatch ep file hint data s)) = mode_flags s).
Proof.
  intros Hvr Hsp. destruct (passes file s) eqn:Hp.
  - apply passes_inv in Hp as [Hs Hr].
    destruct s as [vr sp cam rd]; cbn in Hr; subst rd.
    destruct hint; try congruence; run_entry ep; branches; repeat split; congruence.
  - rewrite dispatch_closed by done. by repeat split.
Qed.

Lemma mode_flags_frame_witness :
  LAUNCH <> VR_MODE /\ LAUNCH <> SUSTAINED_PERFORMANCE /\ LAUNCH <> CAMERA_STREAMING
  /\ mode_flags (state_of (dispatch ep_powerHintAsync_1_3 schedutil LAUNCH 1
                             (mkPower false false true true)))
     = mode_flags (mkPower false false true true).
Proof.
  do 3 (split; [discriminate|]).
  apply (mode_flags_frame ep_powerHintAsync_1_3 schedutil LAUNCH 1
           (mkPower false false true true)); discriminate.
Defined.

(** * Further properties of the code *)

(** ** How the entry points compose *)

(** X1. For every kind but EXPENSIVE_RENDERING, [powerHintAsync_1_3] is
    [powerHintAsync_1_2]: same events, same object, whether or not the
    request passes the gate. *)
Theorem async_1_3_defers_to_1_2 file hint data s :
  hint <> EXPENSIVE_RENDERING ->
  powerHintAsync_1_3 file hint data s = powerHintAsync_1_2 file hint data s.
Proof.
  intros Hh. destruct (passes file s) eqn:Hp.
  - apply passes_inv in Hp as [Hs Hr].
    unfold powerHintAsync_1_3. rewrite gate_open by done.
    destruct hint; try congruence; reflexivity.
  - by rewrite powerHintAsync_1_3_closed, powerHintAsync_1_2_closed.
Qed.

Lemma async_1_3_defers_to_1_2_witness :
  CAMERA_SHOT <> EXPENSIVE_RENDERING
  /\ powerHintAsync_1_3 schedutil CAMERA_SHOT 20 (mkPower false false false true)
     = powerHintAsync_1_2 schedutil CAMERA_SHOT 20 (mkPower false false false true).
Proof.
  split; [discriminate|].
  apply (async_1_3_defers_to_1_2 schedutil CAMERA_SHOT 20
           (mkPower false false false true)).
  discriminate.
Defined.

(** X2. For a kind of interface 1.0, [powerHintAsync_1_2] leaves the object
    as [powerHint] does and acts on the collaborators as [powerHint] does;
    when the request passes the gate its trace is that of [powerHint] after
    one more [ATRACE_INT]. *)
Theorem async_1_2_defers_to_powerHint file hint data s :
  kind_1_0 hint ->
  state_of (powerHintAsync_1_2 file hint data s) = state_of (powerHint file hint data s)
  /\ effects (trace_of (powerHintAsync_1_2 file hint data s))
     = effects (trace_of (powerHint file hint data s))
  /\ (passes file s = true ->
      trace_of (powerHintAsync_1_2 file hint data s)
      = ATRACE_INT hint data :: trace_of (powerHint file hint data s)).
Proof.
  unfold kind_1_0. intros Hh. destruct (passes file s) eqn:Hp.
  - apply passes_inv in Hp as [Hs Hr].
    destruct hint; cbn in Hh; try lia;
      unfold powerHintAsync_1_2 at 1 2 3; rewrite !gate_open by done; cbn;
      destruct (powerHint _ _ data s) as [[[] s1] t1]; by repeat split.
  - rewrite powerHintAsync_1_2_closed, powerHint_closed by done.
    by repeat split.
Qed.

Lemma async_1_2_defers_to_powerHint_witness :
  kind_1_0 VR_MODE
  /\ trace_of (powerHintAsync_1_2 schedutil VR_MODE 1 (mkPower false true false true))
     = ATRACE_INT VR_MODE 1
       :: trace_of (powerHint schedutil VR_MODE 1 (mkPower false true false true)).
Proof.
  assert (kind_1_0 VR_MODE) as Hk by (unfold kind_1_0; cbn; lia).
  split; [exact Hk|].
  apply (async_1_2_defers_to_powerHint schedutil VR_MODE 1
           (mkPower false true false true) Hk).
  reflexivity.
Defined.

(** X3. A kind an entry point does not know is ignored there: VSYNC,
    VIDEO_ENCODE and VIDEO_DECODE everywhere, the kinds of interfaces 1.2
    and 1.3 in [powerHint] and [powerHintAsync], and EXPENSIVE_RENDERING in
    [powerHintAsync_1_2].  The request acts on no collaborator and leaves
    the object as it was. *)
Theorem unknown_kind_ignored ep file hint data s :
  (hint = VSYNC \/ hint = VIDEO_ENCODE \/ hint = VIDEO_DECODE)
  \/ (~ kind_1_0 hint /\ (ep = ep_powerHint \/ ep = ep_powerHintAsync))
  \/ (hint = EXPENSIVE_RENDERING /\ ep = ep_powerHintAsync_1_2) ->
  effects (trace_of (dispatch ep file hint data s)) = []
  /\ state_of (dispatch ep file hint data s) = s.
Proof.
  intros Hh. destruct (passes file s) eqn:Hp.
  - apply passes_inv in Hp as [Hs Hr]. unfold kind_1_0 in Hh.
    destruct Hh as [[-> | [-> | ->]] | [[Hk [-> | ->]] | [-> ->]]];
      try (destruct hint; cbn in Hk; try lia);
      try (destruct ep); cbn [dispatch]; unfold powerHintAsync;
      repeat enter; by split.
  - rewrite dispatch_closed by done. split; [|done].
    unfold effects, governor_log. by case_bool_decide.
Qed.

Lemma unknown_kind_ignored_witness :
  (EXPENSIVE_RENDERING = EXPENSIVE_RENDERING
   /\ ep_powerHintAsync_1_2 = ep_powerHintAsync_1_2)
  /\ effects (trace_of (dispatch ep_powerHintAsync_1_2 schedutil EXPENSIVE_RENDERING 1
                          (mkPower false false false true))) = []
  /\ state_of (dispatch ep_powerHintAsync_1_2 schedutil EXPENSIVE_RENDERING 1
                 (mkPower false false false true)) = mkPower false false false true.
Proof.
  split; [by split|].
  apply (unknown_kind_ignored ep_powerHintAsync_1_2 schedutil EXPENSIVE_RENDERING 1
           (mkPower false false false true)).
  right; right. by split.
Defined.

(** X4. A request stopped by an unsupported governor logs that once, also
    through the entry points that would test the governor again further
    down; a request stopped only because the object is not ready logs
    nothing. *)
Theorem dropped_request_log ep file hint data s :
  (~ supported file ->
   trace_of (dispatch ep file hint data s)
   = [LOG_ERROR "Governor not supported by powerHAL, skipping"])
  /\ (supported file -> mReady s = false ->
      trace_of (dispatch ep file hint data s) = []).
Proof.
  split.
  - intros Hn. rewrite dispatch_closed by (apply passes_false; auto).
    unfold governor_log. by rewrite bool_decide_eq_false_2.
  - intros Hs Hr. rewrite dispatch_closed by (apply passes_false; auto).
    cbn. by apply governor_log_supported.
Qed.

Lemma dropped_request_log_witness :
  ~ supported (mkReadFile false "")
  /\ trace_of (dispatch ep_powerHintAsync_1_3 (mkReadFile false "") LAUNCH 1
                 (mkPower false false false true))
     = [LOG_ERROR "Governor not supported by powerHAL, skipping"]
  /\ supported schedutil /\ mReady Power_new = false
  /\ trace_of (dispatch ep_powerHintAsync_1_3 schedutil LAUNCH 1 Power_new) = [].
Proof.
  assert (~ supported (mkReadFile false "")) as Hn
    by (intros [H | H]; discriminate H).
  split; [exact Hn|]. split.
  - apply (dropped_request_log ep_powerHintAsync_1_3 (mkReadFile false "") LAUNCH 1
             (mkPower false false false true)). exact Hn.
  - split; [exact schedutil_supported|]. split; [reflexivity|].
    apply (dropped_request_log ep_powerHintAsync_1_3 schedutil LAUNCH 1 Power_new).
    + exact schedutil_supported.
    + reflexivity.
Defined.

(** ** Requests no mode suppresses *)

(** X5. LOW_POWER is independent of the mode flags: whenever it passes the
    gate, through any entry point, its one effect is
    [set_display_lpm] with the truth value of the payload, and the object
    is left as it was. *)
Theorem low_power_toggles_display ep file data s :
  supported file -> mReady s = true ->
  effects (trace_of (dispatch ep file LOW_POWER data s))
    = [set_display_lpm (truthy data)]
  /\ state_of (dispatch ep file LOW_POWER data s) = s.
Proof.
  intros Hs Hr. run_entry ep; destruct (truthy data); by split.
Qed.

Lemma low_power_toggles_display_witness :
  supported schedutil /\ mReady (mkPower true true false true) = true
  /\ effects (trace_of (dispatch ep_powerHintAsync_1_3 schedutil LOW_POWER 0
                          (mkPower true true false true)))
     = [set_display_lpm false].
Proof.
  split; [exact schedutil_supported|]. split; [reflexivity|].
  apply (low_power_toggles_display ep_powerHintAsync_1_3 schedutil 0
           (mkPower true true false true)).
  - exact schedutil_supported.
  - reflexivity.
Defined.

(** X6. AUDIO_LOW_LATENCY is never suppressed: whenever it passes the gate,
    through [powerHintAsync_1_2] or [powerHintAsync_1_3], it activates the
    hint on a truthy payload and deactivates it on 0, whatever the mode
    flags are. *)
Theorem audio_low_latency_never_suppressed ep file data s :
  supported file -> mReady s = true ->
  ep = ep_powerHintAsync_1_2 \/ ep = ep_powerHintAsync_1_3 ->
  executor_calls (trace_of (dispatch ep file AUDIO_LOW_LATENCY data s))
    = [if truthy data then activate "AUDIO_LOW_LATENCY" None
       else deactivate "AUDIO_LOW_LATENCY"]
  /\ state_of (dispatch ep file AUDIO_LOW_LATENCY data s) = s.
Proof.
  intros Hs Hr [-> | ->]; cbn [dispatch]; repeat enter;
    destruct (truthy data); by split.
Qed.

Lemma audio_low_latency_never_suppressed_witness :
  supported schedutil /\ mReady (mkPower true true false true) = true
  /\ executor_calls (trace_of (dispatch ep_powerHintAsync_1_2 schedutil
       AUDIO_LOW_LATENCY 1 (mkPower true true false true)))
     = [activate "AUDIO_LOW_LATENCY" None].
Proof.
  split; [exact schedutil_supported|]. split; [reflexivity|].
  apply (audio_low_latency_never_suppressed ep_powerHintAsync_1_2 schedutil 1
           (mkPower true true false true)).
  - exact schedutil_supported.
  - reflexivity.
  - left; reflexivity.
Defined.

(** ** Guarded requests when no mode is on *)

(** X7. With neither mode flag set, an INTERACTION request that passes the
    gate hands its payload to the interaction handler, once, through any
    entry point; it calls the hint manager itself not at all. *)
Theorem interaction_acquires ep file data s :
  supported file -> mReady s = true -> suppressing s = false ->
  effects (trace_of (dispatch ep file INTERACTION data s)) = [Acquire data]
  /\ state_of (dispatch ep file INTERACTION data s) = s.
Proof.
  intros Hs Hr Hv. destruct s as [vr sp cam rd]. unfold suppressing in Hv.
  cbn in Hr, Hv. subst rd. run_entry ep; rewrite Hv; by split.
Qed.

Lemma interaction_acquires_witness :
  supported schedutil /\ mReady (mkPower false false true true) = true
  /\ suppressing (mkPower false false true true) = false
  /\ effects (trace_of (dispatch ep_powerHintAsync_1_3 schedutil INTERACTION 250
                          (mkPower false false true true))) = [Acquire 250].
Proof.
  split; [exact schedutil_supported|]. do 2 (split; [reflexivity|]).
  apply (interaction_acquires ep_powerHintAsync_1_3 schedutil 250
           (mkPower false false true true)).
  - exact schedutil_supported.
  - reflexivity.
  - reflexivity.
Defined.

(** X8. With neither mode flag set, a LAUNCH request that passes the gate
    activates LAUNCH without a timeout on a truthy payload and deactivates
    it on 0, through any entry point. *)
Theorem launch_until_cancelled ep file data s :
  supported file -> mReady s = true -> suppressing s = false ->
  effects (trace_of (dispatch ep file LAUNCH data s))
    = [if truthy data then DoHint "LAUNCH" None else EndHint "LAUNCH"]
  /\ state_of (dispatch ep file LAUNCH data s) = s.
Proof.
  intros Hs Hr Hv. destruct s as [vr sp cam rd]. unfold suppressing in Hv.
  cbn in Hr, Hv. subst rd.
  run_entry ep; rewrite Hv; destruct (truthy data); by split.
Qed.

Lemma launch_until_cancelled_witness :
  supported schedutil /\ mReady (mkPower false false false true) = true
  /\ suppressing (mkPower false false false true) = false
  /\ effects (trace_of (dispatch ep_powerHint schedutil LAUNCH 0
                          (mkPower false false false true))) = [EndHint "LAUNCH"].
Proof.
  split; [exact schedutil_supported|]. do 2 (split; [reflexivity|]).
  apply (launch_until_cancelled ep_powerHint schedutil 0
           (mkPower false false false true)).
  - exact schedutil_supported.
  - reflexivity.
  - reflexivity.
Defined.

(** X9. With neither mode flag set, an AUDIO_STREAMING request with an
    [int32_t] payload that passes the gate asks the Hint Executor for:
    AUDIO_STREAMING on 1 and off 0, a TPU_BOOST of 200 ms on 1001 and of
    2000 ms on 1002, the end of TPU_BOOST on 1000, and nothing on any other
    payload, negative ones included although the sentinels are compared as
    [size_t]. *)
Theorem audio_streaming_payloads ep file data s :
  supported file -> mReady s = true -> suppressing s = false -> int32 data ->
  ep = ep_powerHintAsync_1_2 \/ ep = ep_powerHintAsync_1_3 ->
  executor_calls (trace_of (dispatch ep file AUDIO_STREAMING data s))
    = audio_streaming_calls data
  /\ state_of (dispatch ep file AUDIO_STREAMING data s) = s.
Proof.
  intros Hs Hr Hv Hd Hep. destruct s as [vr sp cam rd]. unfold suppressing in Hv.
  cbn in Hr, Hv. subst rd. unfold audio_streaming_calls.
  assert ((to_size_t data =? kTpuBoostShort) = (data =? 1001)
          /\ (to_size_t data =? kTpuBoostLong) = (data =? 1002)
          /\ (to_size_t data =? kTpuBoostStop) = (data =? 1000)) as (Es & El & Et).
  { unfold kTpuBoostShort, kTpuBoostLong, kTpuBoostStop.
    repeat split; apply to_size_t_eqb; (done || lia). }
  destruct Hep as [-> | ->]; cbn [dispatch]; repeat enter;
    rewrite Hv, Es, El, Et; branches; by split.
Qed.

Lemma audio_streaming_payloads_witness :
  supported schedutil /\ mReady (mkPower false false false true) = true
  /\ suppressing (mkPower false false false true) = false /\ int32 1002
  /\ executor_calls (trace_of (dispatch ep_powerHintAsync_1_2 schedutil
       AUDIO_STREAMING 1002 (mkPower false false false true)))
     = [activate "TPU_BOOST" (Some 2000)].
Proof.
  assert (int32 1002) as Hd by (unfold int32; lia).
  split; [exact schedutil_supported|]. do 2 (split; [reflexivity|]).
  split; [exact Hd|].
  apply (audio_streaming_payloads ep_powerHintAsync_1_2 schedutil 1002
           (mkPower false false false true)).
  - exact schedutil_supported.
  - reflexivity.
  - reflexivity.
  - exact Hd.
  - left; reflexivity.
Defined.

(** X10. With neither mode flag set, an EXPENSIVE_RENDERING request that
    passes the gate of [powerHintAsync_1_3] activates the hint on a
    positive payload and deactivates it on every other one: a negative
    payload is taken as 0 and no error is logged for it. *)
Theorem expensive_rendering_payloads file data s :
  supported file -> mReady s = true -> suppressing s = false ->
  executor_calls (trace_of (powerHintAsync_1_3 file EXPENSIVE_RENDERING data s))
    = [if data >? 0 then activate "EXPENSIVE_RENDERING" None
       else deactivate "EXPENSIVE_RENDERING"]
  /\ error_logs (trace_of (powerHintAsync_1_3 file EXPENSIVE_RENDERING data s)) = []
  /\ state_of (powerHintAsync_1_3 file EXPENSIVE_RENDERING data s) = s.
Proof.
  intros Hs Hr Hv. destruct s as [vr sp cam rd]. unfold suppressing in Hv.
  cbn in Hr, Hv. subst rd. repeat enter. rewrite Hv.
  destruct (data >? 0); by repeat split.
Qed.

Lemma expensive_rendering_payloads_witness :
  supported schedutil /\ mReady (mkPower false false false true) = true
  /\ suppressing (mkPower false false false true) = false
  /\ executor_calls (trace_of (powerHintAsync_1_3 schedutil EXPENSIVE_RENDERING (-3)
                                 (mkPower false false false true)))
     = [deactivate "EXPENSIVE_RENDERING"].
Proof.
  split; [exact schedutil_supported|]. do 2 (split; [reflexivity|]).
  apply (expensive_rendering_payloads schedutil (-3) (mkPower false false false true)).
  - exact schedutil_supported.
  - reflexivity.
  - reflexivity.
Defined.

(** ** Camera requests *)

(** X11. CAMERA_STREAMING with a positive payload that passes the gate
    activates CAMERA_STREAMING without a timeout, whatever the payload's
    size, and sets [mCameraStreamingModeOn], leaving the other flags. *)
Theorem camera_streaming_start ep file p s :
  supported file -> mReady s = true -> 0 < p ->
  ep = ep_powerHintAsync_1_2 \/ ep = ep_powerHintAsync_1_3 ->
  executor_calls (trace_of (dispatch ep file CAMERA_STREAMING p s))
    = [activate "CAMERA_STREAMING" None]
  /\ state_of (dispatch ep file CAMERA_STREAMING p s)
     = set_mCameraStreamingModeOn true s.
Proof.
  intros Hs Hr Hp [-> | ->]; cbn [dispatch]; repeat enter;
    rewrite (gtb_pos p Hp); by split.
Qed.

Lemma camera_streaming_start_witness :
  supported schedutil /\ mReady (mkPower true false false true) = true /\ 0 < 9
  /\ state_of (dispatch ep_powerHintAsync_1_3 schedutil CAMERA_STREAMING 9
                 (mkPower true false false true))
     = mkPower true false true true.
Proof.
  split; [exact schedutil_supported|]. split; [reflexivity|]. split; [lia|].
  apply (camera_streaming_start ep_powerHintAsync_1_3 schedutil 9
           (mkPower true false false true)).
  - exact schedutil_supported.
  - reflexivity.
  - lia.
  - right; reflexivity.
Defined.

(** X12. CAMERA_SHOT that passes the gate activates CAMERA_SHOT for the
    payload in milliseconds when it is positive and deactivates it when it
    is 0, whatever the mode flags are; the object is left as it was. *)
Theorem camera_shot_payloads ep file p s :
  supported file -> mReady s = true -> 0 <= p ->
  ep = ep_powerHintAsync_1_2 \/ ep = ep_powerHintAsync_1_3 ->
  executor_calls (trace_of (dispatch ep file CAMERA_SHOT p s))
    = [if p =? 0 then deactivate "CAMERA_SHOT" else activate "CAMERA_SHOT" (Some p)]
  /\ state_of (dispatch ep file CAMERA_SHOT p s) = s.
Proof.
  intros Hs Hr Hp Hep. destruct (Z.eqb_spec p 0) as [-> | Hne].
  - destruct Hep as [-> | ->]; cbn [dispatch]; repeat enter; by split.
  - destruct Hep as [-> | ->]; cbn [dispatch]; repeat enter;
      rewrite gtb_pos by lia; by split.
Qed.

Lemma camera_shot_payloads_witness :
  supported schedutil /\ mReady (mkPower true true false true) = true /\ 0 <= 120
  /\ executor_calls (trace_of (dispatch ep_powerHintAsync_1_2 schedutil CAMERA_SHOT 120
                                 (mkPower true true false true)))
     = [activate "CAMERA_SHOT" (Some 120)].
Proof.
  split; [exact schedutil_supported|]. split; [reflexivity|]. split; [lia|].
  apply (camera_shot_payloads ep_powerHintAsync_1_2 schedutil 120
           (mkPower true true false true)).
  - exact schedutil_supported.
  - reflexivity.
  - lia.
  - left; reflexivity.
Defined.

(** X13. CAMERA_LAUNCH with payload 0 that passes the gate deactivates
    CAMERA_LAUNCH and nothing else: the LAUNCH boost a positive payload
    started is left to run out. *)
Theorem camera_launch_stop ep file s :
  supported file -> mReady s = true ->
  ep = ep_powerHintAsync_1_2 \/ ep = ep_powerHintAsync_1_3 ->
  executor_calls (trace_of (dispatch ep file CAMERA_LAUNCH 0 s))
    = [deactivate "CAMERA_LAUNCH"]
  /\ state_of (dispatch ep file CAMERA_LAUNCH 0 s) = s.
Proof.
  intros Hs Hr [-> | ->]; cbn [dispatch]; repeat enter; by split.
Qed.

Lemma camera_launch_stop_witness :
  supported schedutil /\ mReady (mkPower false false false true) = true
  /\ executor_calls (trace_of (dispatch ep_powerHintAsync_1_2 schedutil CAMERA_LAUNCH 0
                                 (mkPower false false false true)))
     = [deactivate "CAMERA_LAUNCH"].
Proof.
  split; [exact schedutil_supported|]. split; [reflexivity|].
  apply (camera_launch_stop ep_powerHintAsync_1_2 schedutil
           (mkPower false false false true)).
  - exact schedutil_supported.
  - reflexivity.
  - left; reflexivity.
Defined.

(** X14. [mCameraStreamingModeOn] is written but never read by the entry
    points: the events of a request, and the two mode flags it leaves, are
    the same whatever the value of the flag. *)
Theorem camera_flag_never_read ep file hint data s b :
  trace_of (dispatch ep file hint data (set_mCameraStreamingModeOn b s))
    = trace_of (dispatch ep file hint data s)
  /\ mVRModeOn (state_of (dispatch ep file hint data (set_mCameraStreamingModeOn b s)))
     = mVRModeOn (state_of (dispatch ep file hint data s))
  /\ mSustainedPerfModeOn
       (state_of (dispatch ep file hint data (set_mCameraStreamingModeOn b s)))
     = mSustainedPerfModeOn (state_of (dispatch ep file hint data s)).
Proof.
  destruct (passes file s) eqn:Hp.
  - apply passes_inv in Hp as [Hs Hr].
    destruct s as [vr sp cam rd]; cbn in Hr; subst rd.
    unfold set_mCameraStreamingModeOn; cbn [mVRModeOn mSustainedPerfModeOn mReady].
    destruct hint; run_entry ep; branches; by repeat split.
  - assert (passes file (set_mCameraStreamingModeOn b s) = false) as Hp'
      by (destruct s; exact Hp).
    rewrite !dispatch_closed by done. by repeat split.
Qed.

(** ** Mode requests *)

(** X15. A VR_MODE or SUSTAINED_PERFORMANCE request that passes the gate
    leaves its flag equal to the truth value of its payload, whatever the
    flag was, and touches no other field. *)
Theorem mode_flag_follows_payload ep file hint data s :
  supported file -> mReady s = true -> mode_kind hint ->
  state_of (dispatch ep file hint data s)
  = match hint with
    | VR_MODE => set_mVRModeOn (truthy data) s
    | _ => set_mSustainedPerfModeOn (truthy data) s
    end.
Proof.
  intros Hs Hr Hh. destruct s as [vr sp cam rd]; cbn in Hr; subst rd.
  destruct Hh as [-> | ->]; run_entry ep; destruct (truthy data), vr, sp; reflexivity.
Qed.

Lemma mode_flag_follows_payload_witness :
  supported schedutil /\ mReady (mkPower true true false true) = true
  /\ mode_kind VR_MODE
  /\ state_of (dispatch ep_powerHintAsync_1_2 schedutil VR_MODE 0
                 (mkPower true true false true))
     = mkPower false true false true.
Proof.
  split; [exact schedutil_supported|]. split; [reflexivity|].
  split; [left; reflexivity|].
  apply (mode_flag_follows_payload ep_powerHintAsync_1_2 schedutil VR_MODE 0
           (mkPower true true false true)).
  - exact schedutil_supported.
  - reflexivity.
  - left; reflexivity.
Defined.

(** X16. A VR_MODE or SUSTAINED_PERFORMANCE request that asks for what its
    flag already shows (enable when set, disable when clear) calls the Hint
    Executor not at all and leaves the object as it was. *)
Theorem mode_request_already_met ep file hint data s :
  mode_kind hint -> mode_flag hint s = truthy data ->
  executor_calls (trace_of (dispatch ep file hint data s)) = []
  /\ state_of (dispatch ep file hint data s) = s.
Proof.
  intros Hh Hf. destruct (passes file s) eqn:Hp.
  - apply passes_inv in Hp as [Hs Hr].
    destruct s as [vr sp cam rd]; cbn in Hr; subst rd.
    destruct Hh as [-> | ->]; cbn in Hf; subst; run_entry ep;
      destruct (truthy data); by split.
  - rewrite dispatch_closed by done. split; [apply executor_calls_governor_log | done].
Qed.

Lemma mode_request_already_met_witness :
  mode_kind SUSTAINED_PERFORMANCE
  /\ mode_flag SUSTAINED_PERFORMANCE (mkPower true false false true) = truthy 0
  /\ executor_calls (trace_of (dispatch ep_powerHint schedutil SUSTAINED_PERFORMANCE 0
                                 (mkPower true false false true))) = [].
Proof.
  split; [right; reflexivity|]. split; [reflexivity|].
  apply (mode_request_already_met ep_powerHint schedutil SUSTAINED_PERFORMANCE 0
           (mkPower true false false true)).
  - right; reflexivity.
  - reflexivity.
Defined.

(** X17. Enabling a mode that is off and disabling it again brings back the
    object and the set of active mode hints the pair started from. *)
Theorem enable_disable_round_trip ep1 ep2 file hint d s :
  mode_kind hint -> mode_flag hint s = false -> d <> 0 ->
  state_of (serve [mkRequest ep1 file hint d; mkRequest ep2 file hint 0] s) = s
  /\ foldl apply_call (mode_hints s)
       (executor_calls (trace_of
          (serve [mkRequest ep1 file hint d; mkRequest ep2 file hint 0] s)))
     = mode_hints s.
Proof.
  intros Hh Hf Hd.
  assert (state_of (serve [mkRequest ep1 file hint d; mkRequest ep2 file hint 0] s) = s)
    as Hst.
  { rewrite !state_of_serve_cons, serve_nil. unfold handle.
    cbn [req_entry req_governor req_hint req_data state_of fst snd].
    destruct (passes file s) eqn:Hp.
    - apply passes_inv in Hp as [Hs Hr].
      rewrite (mode_flag_follows_payload ep1) by done.
      rewrite (mode_flag_follows_payload ep2) by (done || by destruct Hh as [-> | ->]).
      rewrite (truthy_true d Hd).
      destruct s as [vr sp cam rd]. destruct Hh as [-> | ->]; cbn in Hf; by subst.
    - rewrite (dispatch_closed ep1) by done. cbn. by rewrite dispatch_closed. }
  split; [exact Hst|].
  destruct (mode_requests_steps [mkRequest ep1 file hint d; mkRequest ep2 file hint 0] s)
    as [_ ->].
  - constructor; [exact Hh|]. constructor; [exact Hh|]. constructor.
  - by rewrite Hst.
Qed.

Lemma enable_disable_round_trip_witness :
  mode_kind VR_MODE /\ mode_flag VR_MODE (mkPower false true false true) = false
  /\ 1 <> 0
  /\ state_of (serve [mkRequest ep_powerHint schedutil VR_MODE 1;
                      mkRequest ep_powerHintAsync_1_3 schedutil VR_MODE 0]
                 (mkPower false true false true))
     = mkPower false true false true.
Proof.
  split; [left; reflexivity|]. split; [reflexivity|]. split; [discriminate|].
  apply (enable_disable_round_trip ep_powerHint ep_powerHintAsync_1_3 schedutil
           VR_MODE 1 (mkPower false true false true)).
  - left; reflexivity.
  - reflexivity.
  - discriminate.
Defined.

(** X18. A VR_MODE request and a SUSTAINED_PERFORMANCE request served in
    either order leave the same object and the same set of active mode
    hints, although the calls they issue differ. *)
Theorem mode_requests_commute ep1 ep2 file d1 d2 s :
  state_of (serve [mkRequest ep1 file VR_MODE d1;
                   mkRequest ep2 file SUSTAINED_PERFORMANCE d2] s)
  = state_of (serve [mkRequest ep2 file SUSTAINED_PERFORMANCE d2;
                     mkRequest ep1 file VR_MODE d1] s)
  /\ foldl apply_call (mode_hints s)
       (executor_calls (trace_of (serve [mkRequest ep1 file VR_MODE d1;
          mkRequest ep2 file SUSTAINED_PERFORMANCE d2] s)))
     = foldl apply_call (mode_hints s)
         (executor_calls (trace_of (serve [mkRequest ep2 file SUSTAINED_PERFORMANCE d2;
            mkRequest ep1 file VR_MODE d1] s))).
Proof.
  assert (state_of (serve [mkRequest ep1 file VR_MODE d1;
                           mkRequest ep2 file SUSTAINED_PERFORMANCE d2] s)
          = state_of (serve [mkRequest ep2 file SUSTAINED_PERFORMANCE d2;
                             mkRequest ep1 file VR_MODE d1] s)) as Hst.
  { rewrite !state_of_serve_cons, !serve_nil. unfold handle.
    cbn [req_entry req_governor req_hint req_data state_of fst snd].
    destruct (passes file s) eqn:Hp.
    - apply passes_inv in Hp as [Hs Hr].
      rewrite (mode_flag_follows_payload ep1 file VR_MODE d1 s) by (done || by left).
      rewrite (mode_flag_follows_payload ep2 file SUSTAINED_PERFORMANCE d2 s)
        by (done || by right).
      rewrite !mode_flag_follows_payload
        by (done || (by left) || (by right) || (by destruct s)).
      by destruct s.
    - rewrite (dispatch_closed ep1 file VR_MODE d1 s),
        (dispatch_closed ep2 file SUSTAINED_PERFORMANCE d2 s) by done.
      cbn. by rewrite !dispatch_closed. }
  split; [exact Hst|].
  destruct (mode_requests_steps [mkRequest ep1 file VR_MODE d1;
              mkRequest ep2 file SUSTAINED_PERFORMANCE d2] s) as [_ ->].
  { constructor; [by left|]. constructor; [by right|]. constructor. }
  destruct (mode_requests_steps [mkRequest ep2 file SUSTAINED_PERFORMANCE d2;
              mkRequest ep1 file VR_MODE d1] s) as [_ ->].
  { constructor; [by right|]. constructor; [by left|]. constructor. }
  by rewrite Hst.
Qed.

(** X19. No request writes [mReady]: after any sequence of requests the
    object is ready exactly if it was before. *)
Theorem ready_never_written rs s :
  mReady (state_of (serve rs s)) = mReady s.
Proof.
  revert s. induction rs as [|r rs IH]; intros s; [reflexivity|].
  rewrite state_of_serve_cons, IH. unfold handle. apply dispatch_mReady.
Qed.

(** ** The mode hints under requests of every kind *)

Lemma same_modes_refl a : same_modes a a.
Proof. by intros name _. Qed.

Lemma same_modes_sym a b : same_modes a b -> same_modes b a.
Proof. intros H name Hn. symmetry. by apply H. Qed.

Lemma same_modes_trans a b c : same_modes a b -> same_modes b c -> same_modes a c.
Proof. intros H1 H2 name Hn. rewrite (H1 name Hn). by apply H2. Qed.

Lemma same_modes_apply a b c :
  same_modes a b -> same_modes (apply_call a c) (apply_call b c).
Proof.
  intros H name Hn. specialize (H name Hn). destruct c as [n d | n]; cbn.
  - rewrite !elem_of_union, !elem_of_singleton. tauto.
  - rewrite !elem_of_difference, !elem_of_singleton. tauto.
Qed.

Lemma same_modes_foldl calls : forall a b,
  same_modes a b -> same_modes (foldl apply_call a calls) (foldl apply_call b calls).
Proof.
  induction calls as [|c calls IH]; intros a b H; [exact H|].
  cbn. apply IH. by apply same_modes_apply.
Qed.

Lemma same_modes_both_plain a b : same_modes a b -> both_plain a -> both_plain b.
Proof.
  intros H [Hvr Hsp]. split.
  - apply (H "VR_MODE"); [|exact Hvr]. unfold mode_names. by_evaluation.
  - apply (H "SUSTAINED_PERFORMANCE"); [|exact Hsp]. unfold mode_names. by_evaluation.
Qed.

Lemma throughout_same_modes calls : forall a b,
  same_modes a b ->
  throughout (fun x => ~ both_plain x) a calls ->
  throughout (fun x => ~ both_plain x) b calls.
Proof.
  induction calls as [|c calls IH]; intros a b H [Ha Hrest]; cbn.
  - split; [|exact I]. intros Hb. apply Ha.
    by apply (same_modes_both_plain b a); [apply same_modes_sym|].
  - split.
    + intros Hb. apply Ha.
      by apply (same_modes_both_plain b a); [apply same_modes_sym|].
    + apply (IH (apply_call a c)); [by apply same_modes_apply | exact Hrest].
Qed.

(** Calls that name no mode hint leave the mode hints alone. *)
Lemma quiet_call a c :
  call_name c ∉ mode_names -> same_modes (apply_call a c) a.
Proof.
  intros Hc name Hn. assert (name <> call_name c) as Hne by congruence.
  destruct c as [n d | n]; cbn in *.
  - rewrite elem_of_union, elem_of_singleton. tauto.
  - rewrite elem_of_difference, elem_of_singleton. tauto.
Qed.

Lemma quiet_calls calls : forall a,
  Forall (fun c => call_name c ∉ mode_names) calls ->
  ~ both_plain a ->
  throughout (fun x => ~ both_plain x) a calls
  /\ same_modes (foldl apply_call a calls) a.
Proof.
  induction calls as [|c calls IH]; intros a Hall Ha.
  - split; [by split | apply same_modes_refl].
  - apply Forall_cons in Hall as [Hc Hall]. cbn.
    pose proof (quiet_call a c Hc) as Hq.
    destruct (IH (apply_call a c) Hall) as [Hthru Hsame].
    { intros Hb. apply Ha. by apply (same_modes_both_plain (apply_call a c) a). }
    split; [by split|]. by apply (same_modes_trans _ (apply_call a c)).
Qed.

(** A request of another kind than VR_MODE and SUSTAINED_PERFORMANCE names
    no mode hint and keeps the two mode flags. *)
Lemma other_request_quiet ep file hint data s :
  ~ mode_kind hint ->
  Forall (fun c => call_name c ∉ mode_names)
    (executor_calls (trace_of (dispatch ep file hint data s)))
  /\ mode_hints (state_of (dispatch ep file hint data s)) = mode_hints s.
Proof.
  unfold mode_kind. intros Hh. destruct (passes file s) eqn:Hp.
  - apply passes_inv in Hp as [Hs Hr].
    destruct s as [vr sp cam rd]; cbn in Hr; subst rd.
    destruct hint; try tauto; run_entry ep; branches;
      (split; [|reflexivity]); repeat constructor; unfold mode_names; by_evaluation.
  - rewrite dispatch_closed by done. cbn [trace_of state_of fst snd].
    rewrite executor_calls_governor_log. by split.
Qed.

Lemma request_step a r s :
  same_modes a (mode_hints s) ->
  throughout (fun x => ~ both_plain x) a (executor_calls (trace_of (handle r s)))
  /\ same_modes (foldl apply_call a (executor_calls (trace_of (handle r s))))
       (mode_hints (state_of (handle r s))).
Proof.
  intros Ha. destruct r as [ep file hint data]. unfold handle.
  cbn [req_entry req_governor req_hint req_data].
  destruct (decide (mode_kind hint)) as [Hk | Hk].
  - destruct (mode_request_step ep file hint data s Hk) as [Hthru Hend].
    split.
    + apply (throughout_same_modes _ (mode_hints s)); [by apply same_modes_sym | done].
    + rewrite <- Hend. by apply same_modes_foldl.
  - destruct (other_request_quiet ep file hint data s Hk) as [Hq ->].
    destruct (quiet_calls _ a Hq) as [Hthru Hsame].
    { intros Hb. apply (mode_hints_not_both s).
      by apply (same_modes_both_plain a). }
    split; [exact Hthru | by apply (same_modes_trans _ a)].
Qed.

Lemma requests_steps rs : forall a s,
  same_modes a (mode_hints s) ->
  throughout (fun x => ~ both_plain x) a (executor_calls (trace_of (serve rs s)))
  /\ same_modes (foldl apply_call a (executor_calls (trace_of (serve rs s))))
       (mode_hints (state_of (serve rs s))).
Proof.
  induction rs as [|r rs IH]; intros a s Ha.
  - rewrite serve_nil. cbn. split; [|exact Ha]. split; [|exact I].
    intros Hb. apply (mode_hints_not_both s). by apply (same_modes_both_plain a).
  - rewrite trace_of_serve_cons, state_of_serve_cons, executor_calls_app, foldl_app.
    destruct (request_step a r s Ha) as [Hthru Hend].
    destruct (IH _ _ Hend) as [IHthru IHend].
    split; [by apply throughout_app | exact IHend].
Qed.

(** X20. Let the Hint Executor hold the mode hint that stands for the two
    mode flags, beside any other hint.  Then after any sequence of requests
    of any kinds, through any entry points and under any governors, it
    holds the mode hint that stands for the flags of the object then; and
    at no point between two calls are VR_MODE and SUSTAINED_PERFORMANCE
    both active. *)
Theorem mode_hints_track_flags rs s a :
  same_modes a (mode_hints s) ->
  (forall calls, calls `prefix_of` executor_calls (trace_of (serve rs s)) ->
     ~ both_plain (foldl apply_call a calls))
  /\ same_modes (foldl apply_call a (executor_calls (trace_of (serve rs s))))
       (mode_hints (state_of (serve rs s))).
Proof.
  intros Ha. destruct (requests_steps rs a s Ha) as [Hthru Hend].
  split; [|exact Hend].
  intros calls Hpre. exact (throughout_prefix _ _ _ _ Hthru Hpre).
Qed.

Lemma mode_hints_track_flags_witness :
  same_modes {["LAUNCH"]} (mode_hints (mkPower false false false true))
  /\ same_modes
       (foldl apply_call {["LAUNCH"]} (executor_calls (trace_of (serve
          [mkRequest ep_powerHint schedutil VR_MODE 1;
           mkRequest ep_powerHintAsync_1_2 schedutil CAMERA_LAUNCH 30;
           mkRequest ep_powerHintAsync_1_3 schedutil SUSTAINED_PERFORMANCE 1]
          (mkPower false false false true)))))
       (mode_hints (state_of (serve
          [mkRequest ep_powerHint schedutil VR_MODE 1;
           mkRequest ep_powerHintAsync_1_2 schedutil CAMERA_LAUNCH 30;
           mkRequest ep_powerHintAsync_1_3 schedutil SUSTAINED_PERFORMANCE 1]
          (mkPower false false false true)))).
Proof.
  assert (same_modes {["LAUNCH"]} (mode_hints (mkPower false false false true))) as Ha.
  { intros name Hn. unfold mode_names in Hn.
    apply elem_of_cons in Hn as [-> | Hn]; [by_evaluation|].
    apply elem_of_cons in Hn as [-> | Hn]; [by_evaluation|].
    apply list_elem_of_singleton in Hn as ->. by_evaluation. }
  split; [exact Ha|].
  apply (mode_hints_track_flags _ (mkPower false false false true) {["LAUNCH"]} Ha).
Defined.

(** ** Start-up *)

(** What the start-up thread leaves when the configuration loads. *)
Lemma init_thread_result path state audio rendering :
  exists s t,
    init_thread path true state audio rendering Power_new = (Running s, t)
    /\ s = mkPower
         (String.eqb state "VR_MODE" || String.eqb state "VR_SUSTAINED_PERFORMANCE")
         (String.eqb state "SUSTAINED_PERFORMANCE"
          || String.eqb state "VR_SUSTAINED_PERFORMANCE")
         (String.eqb state "CAMERA_STREAMING")
         true
    /\ active_after (startup_calls t)
         ∖ {["AUDIO_LOW_LATENCY"; "EXPENSIVE_RENDERING"; "CAMERA_STREAMING"]}
       = mode_hints s.
Proof.
  unfold init_thread. cbn [negb].
  destruct (String.eqb audio "AUDIO_LOW_LATENCY"),
    (String.eqb rendering "EXPENSIVE_RENDERING");
    (destruct (String.eqb_spec state "CAMERA_STREAMING") as [-> | H1];
     [| destruct (String.eqb_spec state "SUSTAINED_PERFORMANCE") as [-> | H2];
        [| destruct (String.eqb_spec state "VR_MODE") as [-> | H3];
           [| destruct (String.eqb_spec state "VR_SUSTAINED_PERFORMANCE")
                as [-> | H4] ]]]);
    eexists; eexists; (split; [reflexivity|]); cbn;
    repeat split; by_evaluation.
Qed.

Lemma same_modes_but_others a b :
  a ∖ {["AUDIO_LOW_LATENCY"; "EXPENSIVE_RENDERING"; "CAMERA_STREAMING"]} = b ->
  same_modes a b.
Proof.
  intros <- name Hn. rewrite elem_of_difference.
  assert (name ∉ ({["AUDIO_LOW_LATENCY"; "EXPENSIVE_RENDERING"; "CAMERA_STREAMING"]}
                  : gset string)) as Hout.
  { unfold mode_names in Hn.
    apply elem_of_cons in Hn as [-> | Hn]; [by_evaluation|].
    apply elem_of_cons in Hn as [-> | Hn]; [by_evaluation|].
    apply list_elem_of_singleton in Hn as ->. by_evaluation. }
  tauto.
Qed.

(** X21. When the configuration loads, the start-up thread always ends with
    the object ready.  The persisted state decides the flags: VR_MODE,
    SUSTAINED_PERFORMANCE and CAMERA_STREAMING set their flag,
    VR_SUSTAINED_PERFORMANCE sets both mode flags, any other value (the
    empty one included) sets none.  The one mode hint the thread activates
    is the one that stands for the flags it sets. *)
Theorem startup_restores_modes path state audio rendering :
  exists s t,
    init_thread path true state audio rendering Power_new = (Running s, t)
    /\ mReady s = true
    /\ mVRModeOn s
       = (String.eqb state "VR_MODE" || String.eqb state "VR_SUSTAINED_PERFORMANCE")
    /\ mSustainedPerfModeOn s
       = (String.eqb state "SUSTAINED_PERFORMANCE"
          || String.eqb state "VR_SUSTAINED_PERFORMANCE")
    /\ mCameraStreamingModeOn s = String.eqb state "CAMERA_STREAMING"
    /\ same_modes (active_after (startup_calls t)) (mode_hints s).
Proof.
  destruct (init_thread_result path state audio rendering)
    as (s & t & Hrun & Hs & Hact).
  apply same_modes_but_others in Hact.
  exists s, t. split; [exact Hrun|].
  do 4 (split; [by subst s|]). exact Hact.
Qed.

(** X22. Start the service with any persisted state and a configuration
    that loads, then serve any sequence of requests of any kinds.  At no
    point are VR_MODE and SUSTAINED_PERFORMANCE both active, and in the end
    the active mode hint is the one that stands for the flags of the
    object. *)
Theorem modes_consistent_from_startup path state audio rendering s t rs :
  init_thread path true state audio rendering Power_new = (Running s, t) ->
  mReady s = true
  /\ (forall calls, calls `prefix_of` executor_calls (trace_of (serve rs s)) ->
        ~ both_plain (foldl apply_call (active_after (startup_calls t)) calls))
  /\ same_modes
       (foldl apply_call (active_after (startup_calls t))
          (executor_calls (trace_of (serve rs s))))
       (mode_hints (state_of (serve rs s))).
Proof.
  intros Hrun.
  destruct (init_thread_result path state audio rendering)
    as (s' & t' & Hrun' & Hs & Hact).
  rewrite Hrun in Hrun'. injection Hrun' as <- <-.
  split; [by subst s|].
  apply same_modes_but_others in Hact.
  destruct (requests_steps rs _ s Hact) as [Hthru Hend].
  split; [|exact Hend].
  intros calls Hpre. exact (throughout_prefix _ _ _ _ Hthru Hpre).
Qed.

Lemma modes_consistent_from_startup_witness :
  init_thread "/vendor/etc/powerhint.json" true "VR_MODE" "AUDIO_LOW_LATENCY" ""
    Power_new
  = (Running (mkPower true false false true),
     [InteractionHandler_Init; ALOGI "Initialize with VR_MODE on";
      hal (DoHint "VR_MODE" None); ALOGI "Initialize with AUDIO_LOW_LATENCY on";
      hal (DoHint "AUDIO_LOW_LATENCY" None)])
  /\ same_modes
       (foldl apply_call
          (active_after (startup_calls
             [InteractionHandler_Init; ALOGI "Initialize with VR_MODE on";
              hal (DoHint "VR_MODE" None); ALOGI "Initialize with AUDIO_LOW_LATENCY on";
              hal (DoHint "AUDIO_LOW_LATENCY" None)]))
          (executor_calls (trace_of (serve
             [mkRequest ep_powerHint schedutil SUSTAINED_PERFORMANCE 1]
             (mkPower true false false true)))))
       (mode_hints (state_of (serve
          [mkRequest ep_powerHint schedutil SUSTAINED_PERFORMANCE 1]
          (mkPower true false false true)))).
Proof.
  split; [reflexivity|].
  apply (modes_consistent_from_startup "/vendor/etc/powerhint.json"
           "VR_MODE" "AUDIO_LOW_LATENCY" ""
           (mkPower true false false true) _
           [mkRequest ep_powerHint schedutil SUSTAINED_PERFORMANCE 1]).
  reflexivity.
Defined.

(** ** The state dump *)

(** X23. [debug] writes only for a non-null handle with at least one
    descriptor and a ready object; otherwise it does nothing at all. *)
Theorem debug_silent handle IsRunning written p :
  debug handle IsRunning written p = []
  <-> handle = None
      \/ (exists h, handle = Some h /\ numFds h < 1)
      \/ mReady p = false.
Proof.
  unfold debug. destruct handle as [h|].
  - destruct (numFds h >=? 1) eqn:Hn, (mReady p) eqn:Hr; cbn.
    + split; [discriminate|]. intros [H | [(h' & [= <-] & H) | H]]; try discriminate.
      apply Z.geb_le in Hn. lia.
    + split; [auto|done].
    + split; [|done]. intros _. right; left. exists h. split; [done|].
      destruct (Z.geb_spec (numFds h) 1); [discriminate | lia].
    + split; [auto|done].
  - split; [auto|done].
Qed.

(** X24. What [debug] writes tells the state apart: two dumps to the same
    handle that write the same text come from objects with the same three
    mode flags and from hint managers in the same running state. *)
Theorem debug_reports_state h r1 r2 w1 w2 p1 p2 :
  1 <= numFds h -> mReady p1 = true -> mReady p2 = true ->
  debug (Some h) r1 w1 p1 = debug (Some h) r2 w2 p2 ->
  r1 = r2 /\ mode_flags p1 = mode_flags p2.
Proof.
  intros Hn Hr1 Hr2. unfold debug.
  assert ((numFds h >=? 1) = true) as -> by (apply Z.geb_le; lia).
  rewrite Hr1, Hr2. cbn [andb].
  destruct p1 as [vr1 sp1 cam1 rd1], p2 as [vr2 sp2 cam2 rd2]. cbn.
  intros H. injection H as H _.
  destruct r1, r2, vr1, vr2, cam1, cam2, sp1, sp2; cbn in H;
    first [by split | discriminate H].
Qed.

Lemma debug_reports_state_witness :
  1 <= numFds (mk_native_handle 1 [5])
  /\ mReady (mkPower true false true true) = true
  /\ debug (Some (mk_native_handle 1 [5])) true true (mkPower true false true true)
     = debug (Some (mk_native_handle 1 [5])) true true (mkPower true false true true)
  /\ mode_flags (mkPower true false true true) = mode_flags (mkPower true false true true).
Proof.
  split; [cbn; lia|]. split; [reflexivity|]. split; [reflexivity|].
  apply (debug_reports_state (mk_native_handle 1 [5]) true true true true
           (mkPower true false true true) (mkPower true false true true)).
  - cbn; lia.
  - reflexivity.
  - reflexivity.
  - reflexivity.
Defined.
